(** * Wallet login flow: UserContext provider and Login component

    A shallow embedding of [UserContext] (the provider holding [currentUser])
    and of [Login.handleLogin].  The provider's callbacks are asynchronous
    JavaScript that mutates a handful of cells (the React state
    [currentUser], the Moralis session, the router, the toast sink) and may
    throw; they are modelled in a state-and-exception monad over one record
    of those cells.  The wallet SDK and the HTTP endpoints are an
    environment [World] given as oracles.

    Modelling conventions.
    - A JavaScript value that may be [undefined] (a user attribute, an
      optional field of a JSON object) is an [option string]; [None] is
      [undefined].  For the two state fields [img] and [link], declared
      [string | null], [None] is [null].
    - JSON bodies are read at the shapes the TypeScript interfaces and the
      endpoints declare: the profile endpoint answers [null] or an object
      with optional string fields, the team endpoint an array of team
      entries.
    - [await] is sequencing: one callback runs from start to end.
    - [console.log] and [console.error] have no effect on the modelled
      cells and are left out. *)

From Stdlib Require Import String List ZArith Bool Lia.
Import ListNotations.
Open Scope string_scope.

(** ** JavaScript values *)

(** Truthiness of a possibly-undefined string: [undefined] and the empty
    string are falsy. *)
Definition truthy (v : option string) : bool :=
  match v with
  | Some s => negb (String.eqb s "")
  | None => false
  end.

(** [`${v}`]: a template literal renders [undefined] as the word. *)
Definition tmpl (v : option string) : string :=
  match v with
  | Some s => s
  | None => "undefined"
  end.

(** [v === s] for a string literal [s]. *)
Definition strict_eq (v : option string) (s : string) : bool :=
  match v with
  | Some x => String.eqb x s
  | None => false
  end.

(** [v || null] *)
Definition or_null (v : option string) : option string :=
  if truthy v then v else None.

(** [s.slice(n)] on a string (ASCII contents). *)
Definition slice (n : nat) (s : string) : string :=
  substring n (String.length s - n) s.

(** ** Data model *)

(** [enum UserLoginError] *)
Inductive UserLoginError : Type :=
| RegistrationPending
| ConnectionPending
| Unknown.

Definition UserLoginError_value (e : UserLoginError) : string :=
  match e with
  | RegistrationPending => "registration pending"
  | ConnectionPending => "connect wallet pending"
  | Unknown => ""
  end.

Definition UserLoginError_eqb (a b : UserLoginError) : bool :=
  match a, b with
  | RegistrationPending, RegistrationPending => true
  | ConnectionPending, ConnectionPending => true
  | Unknown, Unknown => true
  | _, _ => false
  end.

(** An entry of [UserState.teams]. *)
Module Team.
Record t : Type := mk {
  username : string;
  address : option string;
  img : option string
}.
End Team.

(** [interface UserState] *)
Record UserState : Type := mkUserState {
  address : option string;
  username : option string;
  discordUsername : option string;
  gitHubUsername : option string;
  emailAddress : option string;
  moralisId : option string;
  teams : list Team.t;
  isLoggedIn : bool;
  img : option string;
  link : option string
}.

Definition DEFAULT_STATE : UserState := {|
  address := Some "";
  username := Some "";
  discordUsername := Some "";
  gitHubUsername := Some "";
  emailAddress := Some "";
  moralisId := Some "";
  teams := [];
  isLoggedIn := false;
  img := None;
  link := None
|}.

(** The attributes of a [Moralis.User] that the provider reads or writes. *)
Module Attr.
Record t : Type := mk {
  c4Username : option string;
  ethAddress : option string;
  discordUsername : option string;
  gitHubUsername : option string;
  emailAddress : option string;
  handlesPendingConfirmation : option (list string)
}.

(** [user.set("handlesPendingConfirmation", v)] *)
Definition set_handlesPendingConfirmation (v : list string) (u : t) : t :=
  {| c4Username := c4Username u;
     ethAddress := ethAddress u;
     discordUsername := discordUsername u;
     gitHubUsername := gitHubUsername u;
     emailAddress := emailAddress u;
     handlesPendingConfirmation := Some v |}.
End Attr.

(** The JSON object of the profile endpoint, through the fields read. *)
Module Profile.
Record t : Type := mk {
  error : option string;
  moralisId : option string;
  image : option string;
  link : option string
}.
End Profile.

(** ** Environment *)

(** The outcome of a promise of the environment. *)
Inductive Settled (A : Type) : Type :=
| Resolves (a : A)
| Rejects (name : string).
Arguments Resolves {A} a.
Arguments Rejects {A} name.

(** A fetch [Response] whose body parses to a [B]; [json] rejects when the
    body is not JSON. *)
Record Response (B : Type) : Type := mkResponse {
  ok : bool;
  status : Z;
  url : string;
  json : Settled B
}.
Arguments mkResponse {B}.
Arguments ok {B}.
Arguments status {B}.
Arguments url {B}.
Arguments json {B}.

Inductive Web3ProviderType : Type := metamask | walletConnect.

Record World : Type := mkWorld {
  (** [fetch] at the profile endpoint; the body is [null] or an object *)
  fetch_user : string -> Settled (Response (option Profile.t));
  (** [fetch] at the raw-content host; the body is not read *)
  fetch_raw : string -> Settled (Response unit);
  (** [fetch] at the team endpoint *)
  fetch_team : string -> Settled (Response (list Team.t));
  (** [Moralis.Cloud.run("findUser")]: falsy or an array of handles *)
  findUser : Settled (option (list string));
  (** [user.save()] *)
  save : Attr.t -> Settled unit;
  (** [authenticate({ provider })] of [useMoralis] *)
  authenticate : Web3ProviderType -> Settled (option Attr.t)
}.

(** ** Notifications *)

Inductive Render : Type :=
| MsgLoggingIn          (* "Logging in..." *)
| MsgMustSign           (* "You must sign the message to connect your wallet" *)
| MsgSomethingWentWrong (* "Something went wrong. Please refresh the page and try again." *)
| MsgLoggedIn           (* "Logged in" *)
| MsgRegisterAsWarden   (* "Please register as warden" *)
| MsgRegistrationPending (* the span pointing to Discord *)
| MsgConnectionPending. (* "Your request to connect your wallet is pending review. ..." *)

Inductive ToastType : Type := TLoading | TError | TSuccess.

Record Toast : Type := mkToast {
  render : Render;
  type : ToastType
}.

(** ** Mutable cells *)

Record App : Type := mkApp {
  (** the React state of [UserProvider] *)
  currentUser : UserState;
  (** [Moralis.User.current()] *)
  moralisUser : option Attr.t;
  (** [isAuthenticated] of [useMoralis] *)
  isAuthenticated : bool;
  (** number of calls of [logout] of [useMoralis] *)
  logoutCalls : nat;
  (** targets of [navigate], oldest first *)
  routes : list string;
  (** [toast.loading] and [toast.update] calls, oldest first *)
  toasts : list Toast;
  (** URLs passed to [fetch], oldest first *)
  requests : list string;
  (** snapshots sent by [user.save()], oldest first *)
  saved : list Attr.t
}.

(** ** The monad of callbacks *)

Inductive Exception : Type :=
| LoginError (e : UserLoginError)   (* [throw UserLoginError.X], a string *)
| JsError (name : string).          (* an [Error] object *)

Inductive Outcome (A : Type) : Type :=
| Returned (a : A)
| Threw (e : Exception).
Arguments Returned {A} a.
Arguments Threw {A} e.

Definition Async (A : Type) : Type := App -> Outcome A * App.

Definition ret {A} (a : A) : Async A := fun st => (Returned a, st).

Definition throw {A} (e : Exception) : Async A := fun st => (Threw e, st).

Definition bind {A B} (m : Async A) (k : A -> Async B) : Async B :=
  fun st =>
    match m st with
    | (Returned a, st') => k a st'
    | (Threw e, st') => (Threw e, st')
    end.

(** [try { m } catch (error) { h error }] *)
Definition try_catch {A} (m : Async A) (h : Exception -> Async A) : Async A :=
  fun st =>
    match m st with
    | (Returned a, st') => (Returned a, st')
    | (Threw e, st') => h e st'
    end.

Definition gets {A} (f : App -> A) : Async A := fun st => (Returned (f st), st).

Definition modify (f : App -> App) : Async unit := fun st => (Returned tt, f st).

(** [await p] for a promise of the environment *)
Definition await {A} (p : Settled A) : Async A :=
  match p with
  | Resolves a => ret a
  | Rejects name => throw (JsError name)
  end.

Notation "x <- m ;; k" := (bind m (fun x => k))
  (at level 61, m at next level, right associativity).
Notation "m ;;; k" := (bind m (fun _ => k))
  (at level 61, right associativity).

(** [error === UserLoginError.X]: an [Error] object is never equal to a
    string. *)
Definition is_login_error (error : Exception) (x : UserLoginError) : bool :=
  match error with
  | LoginError e => UserLoginError_eqb e x
  | JsError _ => false
  end.

(** *** Primitive effects *)

Definition setCurrentUser (s : UserState) : Async unit :=
  modify (fun st =>
    mkApp s (moralisUser st) (isAuthenticated st) (logoutCalls st)
          (routes st) (toasts st) (requests st) (saved st)).

(** [logout] of [useMoralis]: ends the wallet-auth session. *)
Definition logout : Async unit :=
  modify (fun st =>
    mkApp (currentUser st) None false (S (logoutCalls st))
          (routes st) (toasts st) (requests st) (saved st)).

Definition navigate (to : string) : Async unit :=
  modify (fun st =>
    mkApp (currentUser st) (moralisUser st) (isAuthenticated st) (logoutCalls st)
          (routes st ++ [to]) (toasts st) (requests st) (saved st)).

Definition toast_emit (r : Render) (t : ToastType) : Async unit :=
  modify (fun st =>
    mkApp (currentUser st) (moralisUser st) (isAuthenticated st) (logoutCalls st)
          (routes st) (toasts st ++ [mkToast r t]) (requests st) (saved st)).

Definition fetch {B} (oracle : string -> Settled (Response B)) (u : string)
  : Async (Response B) :=
  modify (fun st =>
    mkApp (currentUser st) (moralisUser st) (isAuthenticated st) (logoutCalls st)
          (routes st) (toasts st) (requests st ++ [u]) (saved st)) ;;;
  await (oracle u).

(** [Moralis.User.current()] *)
Definition Moralis_User_current : Async (option Attr.t) := gets moralisUser.

(** [user.set("handlesPendingConfirmation", v)]: [user] is the object that
    [Moralis.User.current()] returned, so the write is seen through it. *)
Definition user_set_handlesPendingConfirmation (v : list string) : Async unit :=
  modify (fun st =>
    mkApp (currentUser st)
          (option_map (Attr.set_handlesPendingConfirmation v) (moralisUser st))
          (isAuthenticated st) (logoutCalls st)
          (routes st) (toasts st) (requests st) (saved st)).

(** [user.save()] *)
Definition user_save (w : World) (u : Attr.t) : Async unit :=
  await (save w u) ;;;
  modify (fun st =>
    mkApp (currentUser st) (moralisUser st) (isAuthenticated st) (logoutCalls st)
          (routes st) (toasts st) (requests st) (saved st ++ [u])).

(** ** UserProvider *)

Definition get_user_url (c4Username : option string) : string :=
  "/.netlify/functions/get-user?id=" ++ tmpl c4Username.

Definition get_team_url (c4Username : option string) : string :=
  "/.netlify/functions/get-team?id=" ++ tmpl c4Username.

Definition raw_image_url (imagePath : string) : string :=
  "https://raw.githubusercontent.com/code-423n4/code423n4.com/main/_data/handles/"
  ++ imagePath.

Definition getUserInfo (w : World) (user : Attr.t) : Async unit :=
  let c4Username := Attr.c4Username user in
  let ethAddress := Attr.ethAddress user in
  let discordUsername := Attr.discordUsername user in
  let gitHubUsername := Attr.gitHubUsername user in
  let emailAddress := Attr.emailAddress user in
  userResponse <- fetch (fetch_user w) (get_user_url c4Username) ;;
  (if negb (ok userResponse) then
     error <- await (json userResponse) ;;
     match error with
     | None => throw (JsError "TypeError")
     | Some error =>
         if strict_eq (Profile.error error) "User not found"
         then throw (LoginError RegistrationPending)
         else throw (LoginError Unknown)
     end
   else ret tt) ;;;
  registeredUser <- await (json userResponse) ;;
  match registeredUser with
  | None => throw (LoginError RegistrationPending)
  | Some registeredUser =>
      (if negb (truthy (Profile.moralisId registeredUser))
       then throw (LoginError ConnectionPending)
       else ret tt) ;;;
      image <-
        match Profile.image registeredUser with
        | Some path =>
            if truthy (Some path) then
              (* remove the relative part of the path *)
              let imagePath := slice 2 path in
              imgResponse <- fetch (fetch_raw w) (raw_image_url imagePath) ;;
              if ok imgResponse
              then ret (Some (url imgResponse))
              else ret (Some path)
            else ret (Some path)
        | None => ret None
        end ;;
      let moralisId := Profile.moralisId registeredUser in
      let link := or_null (Profile.link registeredUser) in
      let img := or_null image in
      (* fetching teams *)
      teamsResponse <- fetch (fetch_team w) (get_team_url c4Username) ;;
      teams <-
        (if Z.eqb (status teamsResponse) 200
         then await (json teamsResponse)
         else ret []) ;;
      setCurrentUser {|
        username := c4Username;
        moralisId := moralisId;
        address := ethAddress;
        discordUsername := discordUsername;
        gitHubUsername := gitHubUsername;
        emailAddress := emailAddress;
        link := link;
        img := img;
        teams := teams;
        isLoggedIn := true
      |}
  end.

Definition logUserOut : Async unit :=
  logout ;;;
  setCurrentUser DEFAULT_STATE.

(** The result is [undefined] ([None]) or the string ["connected"]. *)
Definition connectWallet (w : World) : Async (option string) :=
  user <- Moralis_User_current ;;
  match user with
  | None =>
      logUserOut ;;;
      ret None
  | Some user =>
      let username := Attr.c4Username user in
      let handlesPendingConfirmation := Attr.handlesPendingConfirmation user in
      (* an array, even an empty one, is truthy *)
      (match handlesPendingConfirmation with
       | Some _ => navigate "/confirm-account"
       | None => ret tt
       end) ;;;
      if negb (truthy username) then
        (* check for existing user who has submitted with that address/register them *)
        associatedHandles <- await (findUser w) ;;
        match associatedHandles with
        | None =>
            logUserOut ;;;
            navigate "/register" ;;;
            ret None
        | Some handles =>
            if Nat.ltb (List.length handles) 1 then
              logUserOut ;;;
              navigate "/register" ;;;
              ret None
            else
              user_set_handlesPendingConfirmation handles ;;;
              user_save w (Attr.set_handlesPendingConfirmation handles user) ;;;
              navigate "/confirm-account" ;;;
              ret (Some "connected")
        end
      else
        try_catch (getUserInfo w user) (fun error => throw error) ;;;
        ret (Some "connected")
  end.

(** The effect run on page load and whenever [isAuthenticated] or [user]
    of [useMoralis] changes. *)
Definition checkForUser (w : World) : Async unit :=
  authenticated <- gets isAuthenticated ;;
  if negb authenticated then
    setCurrentUser DEFAULT_STATE
  else
    try_catch
      (user <- Moralis_User_current ;;
       match user with
       | None => logUserOut
       | Some user =>
           let username := Attr.c4Username user in
           if truthy username then getUserInfo w user else ret tt
       end)
      (fun error => ret tt).

(** ** Login *)

(** [toast.update(id, { render, type, isLoading: false, autoClose: 2000 })] *)
Definition toast_update (r : Render) (t : ToastType) : Async unit :=
  toast_emit r t.

(** [authenticate({ provider })]: on success the SDK holds the identity. *)
Definition Moralis_authenticate (w : World) (provider : Web3ProviderType)
  : Async (option Attr.t) :=
  user <- await (authenticate w provider) ;;
  match user with
  | Some u =>
      modify (fun st =>
        mkApp (currentUser st) (Some u) true (logoutCalls st)
              (routes st) (toasts st) (requests st) (saved st)) ;;;
      ret (Some u)
  | None => ret None
  end.

Definition handleLogin (w : World) (provider : Web3ProviderType) : Async unit :=
  toast_emit MsgLoggingIn TLoading ;;;
  returned <-
    try_catch
      (user <- Moralis_authenticate w provider ;;
       match user with
       | None =>
           (* user clicked "cancel" when prompted to sign message *)
           toast_update MsgMustSign TError ;;;
           ret true
       | Some _ => ret false
       end)
      (fun error =>
         logUserOut ;;;
         toast_update MsgSomethingWentWrong TError ;;;
         ret true) ;;
  if returned : bool then ret tt
  else
    try_catch
      (connection <- connectWallet w ;;
       if truthy connection
       then toast_update MsgLoggedIn TSuccess
       else toast_update MsgRegisterAsWarden TError)
      (fun error =>
         logUserOut ;;;
         if is_login_error error RegistrationPending then
           toast_update MsgRegistrationPending TError
         else
           (if is_login_error error ConnectionPending
            then toast_update MsgConnectionPending TError
            else ret tt) ;;;
           toast_update MsgSomethingWentWrong TError).

(** ** Properties of the session state *)

(** [isLoggedIn] holds exactly when [moralisId] and [username] are both
    non-empty. *)
Definition session_invariant (s : UserState) : bool :=
  Bool.eqb (isLoggedIn s) (truthy (moralisId s) && truthy (username s)).

(** The five notifications [handleLogin] chooses among once the wallet has
    authenticated. *)
Definition login_notification (t : Toast) : bool :=
  match render t with
  | MsgLoggedIn | MsgRegisterAsWarden | MsgRegistrationPending
  | MsgConnectionPending | MsgSomethingWentWrong => true
  | MsgLoggingIn | MsgMustSign => false
  end.

(** The session [getUserInfo] stores for [user] and the profile record
    [registeredUser] when the avatar step leaves [image] and the team step
    [teams]. *)
Definition resolved_session (user : Attr.t) (registeredUser : Profile.t)
    (image : option string) (teams : list Team.t) : UserState := {|
  username := Attr.c4Username user;
  moralisId := Profile.moralisId registeredUser;
  address := Attr.ethAddress user;
  discordUsername := Attr.discordUsername user;
  gitHubUsername := Attr.gitHubUsername user;
  emailAddress := Attr.emailAddress user;
  link := or_null (Profile.link registeredUser);
  img := or_null image;
  teams := teams;
  isLoggedIn := true
|}.

(** What the team step yields for a response: the parsed body on status
    200, the empty list otherwise. *)
Definition teams_of (teamsResponse : Response (list Team.t))
  : Settled (list Team.t) :=
  if Z.eqb (status teamsResponse) 200 then json teamsResponse else Resolves [].

(** Whether a non-empty [moralisId] can be resolved for an identity: it has
    a handle and the profile endpoint answers ok with a record carrying
    one. *)
Definition moralisId_resolvable (w : World) (user : Attr.t) : bool :=
  truthy (Attr.c4Username user) &&
  match fetch_user w (get_user_url (Attr.c4Username user)) with
  | Resolves userResponse =>
      ok userResponse &&
      match json userResponse with
      | Resolves (Some registeredUser) =>
          truthy (Profile.moralisId registeredUser)
      | _ => false
      end
  | Rejects _ => false
  end.

(** The restore has logged out: the session is the empty sentinel and the
    wallet-auth session is over. *)
Definition logged_out (st : App) : Prop :=
  currentUser st = DEFAULT_STATE /\
  moralisUser st = None /\
  isAuthenticated st = false.

(** ** Sample environments *)

Module Samples.

Definition app0 : App := {|
  currentUser := DEFAULT_STATE;
  moralisUser := None;
  isAuthenticated := false;
  logoutCalls := 0;
  routes := [];
  toasts := [];
  requests := [];
  saved := []
|}.

Definition alice : Attr.t := {|
  Attr.c4Username := Some "alice";
  Attr.ethAddress := Some "0xa11ce";
  Attr.discordUsername := Some "alice#1";
  Attr.gitHubUsername := Some "alice-gh";
  Attr.emailAddress := Some "alice@example.org";
  Attr.handlesPendingConfirmation := None
|}.

(** An identity with a handle whose pending-confirmation marker is set. *)
Definition alice_pending : Attr.t :=
  Attr.set_handlesPendingConfirmation ["alice"] alice.

(** An identity without a handle. *)
Definition nameless : Attr.t := {|
  Attr.c4Username := None;
  Attr.ethAddress := Some "0xb0b";
  Attr.discordUsername := None;
  Attr.gitHubUsername := None;
  Attr.emailAddress := None;
  Attr.handlesPendingConfirmation := None
|}.

Definition signed_in (u : Attr.t) : App := {|
  currentUser := DEFAULT_STATE;
  moralisUser := Some u;
  isAuthenticated := true;
  logoutCalls := 0;
  routes := [];
  toasts := [];
  requests := [];
  saved := []
|}.

Definition respond {B} (st : Z) (u : string) (b : B) : Settled (Response B) :=
  Resolves {| ok := Z.leb 200 st && Z.ltb st 300; status := st; url := u;
              json := Resolves b |}.

Definition bob : Team.t :=
  {| Team.username := "bob"; Team.address := None; Team.img := None |}.

Definition record_m1 : Profile.t := {|
  Profile.error := None;
  Profile.moralisId := Some "m1";
  Profile.image := Some "./x.png";
  Profile.link := None
|}.

Definition record_unlinked : Profile.t := {|
  Profile.error := None;
  Profile.moralisId := None;
  Profile.image := Some "./x.png";
  Profile.link := None
|}.

Definition record_not_found : Profile.t := {|
  Profile.error := Some "User not found";
  Profile.moralisId := None;
  Profile.image := None;
  Profile.link := None
|}.

Definition resolved_png : string :=
  "https://raw.githubusercontent.com/code-423n4/code423n4.com/main/_data/handles/x.png".

(** A backend parameterised by its three answers; the wallet hands out
    [who] and [findUser] answers [found]. *)
Definition world (user_status : Z) (body : option Profile.t)
    (raw_status team_status : Z) (who : option Attr.t)
    (found : option (list string)) : World := {|
  fetch_user := fun u => respond user_status u body;
  fetch_raw := fun u => respond raw_status u tt;
  fetch_team := fun u => respond team_status u [bob];
  findUser := Resolves found;
  save := fun _ => Resolves tt;
  authenticate := fun _ => Resolves who
|}.

(** Everything answers 200 for alice. *)
Definition w_ok : World :=
  world 200 (Some record_m1) 200 200 (Some alice) None.

(** The profile endpoint answers 404 [{error: "User not found"}]. *)
Definition w_404 : World :=
  world 404 (Some record_not_found) 200 200 (Some alice) None.

(** The profile record has no [moralisId]. *)
Definition w_unlinked : World :=
  world 200 (Some record_unlinked) 200 200 (Some alice) None.

(** The team endpoint answers 500. *)
Definition w_team500 : World :=
  world 200 (Some record_m1) 200 500 (Some alice) None.

(** The raw-content probe answers 404. *)
Definition w_raw404 : World :=
  world 200 (Some record_m1) 404 200 (Some alice) None.

(** The wallet hands out alice with her pending marker still set. *)
Definition w_pending : World :=
  world 200 (Some record_m1) 200 200 (Some alice_pending) None.

(** The wallet hands out an identity without handle; [findUser] knows
    one handle for its address. *)
Definition w_found : World :=
  world 200 (Some record_m1) 200 200 (Some nameless) (Some ["carol"]).

(** Alice is logged in, as [getUserInfo] leaves her against [w_ok]. *)
Definition alice_session : UserState :=
  resolved_session alice record_m1 (Some resolved_png) [bob].

Definition logged_in_alice : App := {|
  currentUser := alice_session;
  moralisUser := Some alice;
  isAuthenticated := true;
  logoutCalls := 0;
  routes := [];
  toasts := [];
  requests := [];
  saved := []
|}.

(** [isAuthenticated] is still set but the SDK has no current user. *)
Definition stale_alice : App := {|
  currentUser := alice_session;
  moralisUser := None;
  isAuthenticated := true;
  logoutCalls := 0;
  routes := [];
  toasts := [];
  requests := [];
  saved := []
|}.

End Samples.

(** ** Account change

    The listener that [UserProvider] registers with
    [Moralis.onAccountChanged], and [linkAccount].  They touch, besides the
    cells of [App], the error toasts, the modal on display and the accounts
    linked to the identity. *)

(** The two closures handed to [showModal]. *)
Inductive ModalAction : Type :=
| ActionLinkAccount (account username : string)
    (* [async () => await linkAccount(account, username)] *)
| ActionLogout.
    (* [logout] *)

(** The argument of [showModal]; [body] holds the text of its paragraphs. *)
Record Modal : Type := mkModal {
  title : string;
  body : list string;
  primaryButtonText : string;
  secondaryButtonText : string;
  primaryButtonAction : ModalAction;
  secondaryButtonAction : ModalAction
}.

Record Page : Type := mkPage {
  app : App;
  (** arguments of [toast.error], oldest first *)
  errors : list (option string);
  (** the argument of the last [showModal] *)
  modal : option Modal;
  (** accounts for which [Moralis.link] resolved, oldest first *)
  linked : list string
}.

(** What the listener asks of the SDK besides [App]'s session. *)
Record MoralisSDK : Type := mkMoralisSDK {
  (** [user.get("accounts")] of the current user: falsy or an array *)
  user_accounts : Settled (option (list string));
  (** [Moralis.link(account)] *)
  Moralis_link : string -> Settled unit
}.

Definition Effect (A : Type) : Type := Page -> Outcome A * Page.

(** An effect on the cells of [App] alone. *)
Definition lift {A} (m : Async A) : Effect A :=
  fun p =>
    match m (app p) with
    | (r, a) => (r, mkPage a (errors p) (modal p) (linked p))
    end.

Definition and_then {A B} (m : Effect A) (k : A -> Effect B) : Effect B :=
  fun p =>
    match m p with
    | (Returned a, p') => k a p'
    | (Threw e, p') => (Threw e, p')
    end.

(** [try { m } catch (error) { h error }] *)
Definition catching {A} (m : Effect A) (h : Exception -> Effect A) : Effect A :=
  fun p =>
    match m p with
    | (Returned a, p') => (Returned a, p')
    | (Threw e, p') => h e p'
    end.

Definition toast_error (message : option string) : Effect unit :=
  fun p => (Returned tt, mkPage (app p) (errors p ++ [message]) (modal p) (linked p)).

Definition showModal (m : Modal) : Effect unit :=
  fun p => (Returned tt, mkPage (app p) (errors p) (Some m) (linked p)).

(** [await Moralis.link(account)] *)
Definition Moralis_link_account (sdk : MoralisSDK) (account : string) : Effect unit :=
  and_then (lift (await (Moralis_link sdk account)))
    (fun _ p =>
       (Returned tt, mkPage (app p) (errors p) (modal p) (linked p ++ [account]))).

(** [error.message]: the string an [Error] object carries is read as its
    message; a thrown string has none. *)
Definition error_message (error : Exception) : option string :=
  match error with
  | JsError message => Some message
  | LoginError _ => None
  end.

Definition msg_wallet_disconnected : string :=
  "Something went wrong; your wallet has been disconnected".

Definition msg_registered_users_only : string :=
  "Only registered users can link accounts; your wallet has been disconnected".

Definition msg_already_linked (username : string) : string :=
  "Account cannot be linked to " ++ username ++
  " because it is already associated with another user. You have been logged out.".

Declare Scope effect_scope.
Notation "x <- m ;; k" := (and_then m (fun x => k))
  (at level 61, m at next level, right associativity) : effect_scope.
Notation "m ;;; k" := (and_then m (fun _ => k))
  (at level 61, right associativity) : effect_scope.
Delimit Scope effect_scope with effect.

Definition linkAccount (sdk : MoralisSDK) (account username : string)
  : Effect unit :=
  catching
    (Moralis_link_account sdk account)
    (fun error =>
       ((if strict_eq (error_message error) "this auth is already used"
         then toast_error (Some (msg_already_linked username))
         else (fun p => (Returned tt, p))) ;;;
        lift logout)%effect).

(** The callback passed to [Moralis.onAccountChanged]. *)
Definition onAccountChanged (sdk : MoralisSDK) (account : string) : Effect unit :=
  (user <- lift Moralis_User_current ;;
   match user with
   | None =>
       toast_error (Some msg_wallet_disconnected) ;;;
       lift logout
   | Some user =>
       catching
         (accounts <- lift (await (user_accounts sdk)) ;;
          match accounts with
          | None =>
              toast_error (Some msg_wallet_disconnected) ;;;
              lift logout
          | Some _ =>
              let username := Attr.c4Username user in
              if negb (truthy username) then
                toast_error (Some msg_registered_users_only) ;;;
                lift logout
              else
                showModal {|
                  title := "Link this address to your account";
                  body :=
                    [(tmpl username ++ ", are you sure you want to link the address "
                      ++ account ++ " to your account?")%string;
                     "If you do not want to link the address to your account, you must log out"];
                  primaryButtonText := "Link address";
                  secondaryButtonText := "Logout";
                  primaryButtonAction := ActionLinkAccount account (tmpl username);
                  secondaryButtonAction := ActionLogout
                |}
          end)
         (fun error =>
            toast_error (error_message error) ;;;
            lift logout)
   end)%effect.

(** Pressing a button of the modal runs its closure. *)
Definition run_action (sdk : MoralisSDK) (action : ModalAction) : Effect unit :=
  match action with
  | ActionLinkAccount account username => linkAccount sdk account username
  | ActionLogout => lift logout
  end.

(** The [useEffect] on [isAuthenticated] and [user] runs [checkForUser]
    on the cells of [App]. *)
Definition checkForUser_effect (w : World) : Effect unit :=
  lift (checkForUser w).

(** The state in which [handleLogin] calls [connectWallet] once
    [authenticate] has resolved to [user]: the loading toast is out and
    the SDK holds the identity. *)
Definition authenticated_as (user : Attr.t) (st : App) : App :=
  mkApp (currentUser st) (Some user) true (logoutCalls st) (routes st)
        (toasts st ++ [mkToast MsgLoggingIn TLoading])%list
        (requests st) (saved st).

Module AccountSamples.

Definition page (st : App) : Page :=
  {| app := st; errors := []; modal := None; linked := [] |}.

(** Alice has one linked account; linking another one succeeds. *)
Definition sdk_ok : MoralisSDK :=
  {| user_accounts := Resolves (Some ["0xa11ce"]);
     Moralis_link := fun _ => Resolves tt |}.

(** The address already belongs to another user. *)
Definition sdk_taken : MoralisSDK :=
  {| user_accounts := Resolves (Some ["0xa11ce"]);
     Moralis_link := fun _ => Rejects "this auth is already used" |}.

(** The identity has no [accounts] attribute. *)
Definition sdk_no_accounts : MoralisSDK :=
  {| user_accounts := Resolves None;
     Moralis_link := fun _ => Resolves tt |}.

End AccountSamples.

Module MoreSamples.

(** The profile endpoint answers 500 with another error. *)
Definition record_internal : Profile.t := {|
  Profile.error := Some "Internal error";
  Profile.moralisId := None;
  Profile.image := None;
  Profile.link := None
|}.

Definition w_500 : World :=
  Samples.world 500 (Some record_internal) 200 200 (Some Samples.alice) None.

(** The profile endpoint answers 200 with the JSON value [null]. *)
Definition w_null : World :=
  Samples.world 200 None 200 200 (Some Samples.alice) None.

(** A record without image and with a link. *)
Definition record_plain : Profile.t := {|
  Profile.error := None;
  Profile.moralisId := Some "m1";
  Profile.image := None;
  Profile.link := Some "https://alice.example.org"
|}.

Definition w_plain : World :=
  Samples.world 200 (Some record_plain) 200 200 (Some Samples.alice) None.

(** The raw-content host cannot be reached. *)
Definition w_probe_down : World := {|
  fetch_user := fetch_user Samples.w_ok;
  fetch_raw := fun _ => Rejects "Failed to fetch";
  fetch_team := fetch_team Samples.w_ok;
  findUser := findUser Samples.w_ok;
  save := save Samples.w_ok;
  authenticate := authenticate Samples.w_ok
|}.

(** The team endpoint answers 200 with a body that is not JSON. *)
Definition w_team_garbled : World := {|
  fetch_user := fetch_user Samples.w_ok;
  fetch_raw := fetch_raw Samples.w_ok;
  fetch_team := fun u =>
    Resolves {| ok := true; status := 200; url := u;
                json := Rejects "Unexpected token < in JSON" |};
  findUser := findUser Samples.w_ok;
  save := save Samples.w_ok;
  authenticate := authenticate Samples.w_ok
|}.

(** The wallet hands out an identity without handle and [findUser] knows
    no handle for its address. *)
Definition w_stranger : World :=
  Samples.world 200 (Some Samples.record_m1) 200 200 (Some Samples.nameless)
                (Some []).

(** The user declines to sign. *)
Definition w_cancel : World :=
  Samples.world 200 (Some Samples.record_m1) 200 200 None None.

End MoreSamples.

(** ** Root element *)

(** The props [wrapRootElement] passes to [MoralisProvider]. *)
Record MoralisProviderProps : Type := mkMoralisProviderProps {
  appId : option string;
  serverUrl : option string
}.

(** [wrapRootElement], through the props of the [MoralisProvider] that
    wraps the element; [env] is [process.env]. *)
Definition wrapRootElement (env : string -> option string)
  : MoralisProviderProps :=
  let environment := env "NODE_ENV" in
  if strict_eq environment "staging" then
    {| serverUrl := env "STAGING_MORALIS_SERVER";
       appId := env "STAGING_MORALIS_APP_ID" |}
  else if strict_eq environment "production" then
    {| serverUrl := env "PRODUCTION_MORALIS_SERVER";
       appId := env "PRODUCTION_MORALIS_APP_ID" |}
  else
    {| serverUrl := env "DEV_MORALIS_SERVER";
       appId := env "DEV_MORALIS_APP_ID" |}.

(** The deployments a Moralis server is configured for, with the prefix
    of their two environment variables. *)
Inductive Deployment : Type := Staging | Production | Dev.

Definition deployment_prefix (d : Deployment) : string :=
  match d with
  | Staging => "STAGING"
  | Production => "PRODUCTION"
  | Dev => "DEV"
  end.

(** ** Proof support *)

Arguments get_user_url : simpl never.
Arguments get_team_url : simpl never.
Arguments raw_image_url : simpl never.
Arguments slice : simpl never.
Arguments getUserInfo : simpl never.
Arguments connectWallet : simpl never.

(** Unfold the monad and the primitive effects. *)
Ltac unfold_effects :=
  unfold logUserOut, logout, setCurrentUser, navigate, toast_update,
    toast_emit, fetch, Moralis_User_current, Moralis_authenticate,
    user_set_handlesPendingConfirmation, user_save,
    try_catch, bind, await, modify, gets, ret, throw in *.

(** Split on whatever the environment answered. *)
Ltac case_scrutinee :=
  match goal with
  | |- context [match ?x with _ => _ end] =>
      lazymatch x with
      | context [match _ with _ => _ end] => fail
      | _ => let E := fresh "E" in destruct x eqn:E
      end
  end.

Ltac case_world := repeat (case_scrutinee; cbn [fst snd currentUser]).

Lemma truthy_Some_nonempty (s : string) :
  s <> "" -> truthy (Some s) = true.
Proof.
  intros H. unfold truthy.
  destruct (String.eqb_spec s ""); [contradiction | reflexivity].
Qed.

Lemma truthy_true_inv (v : option string) :
  truthy v = true -> exists s, v = Some s /\ s <> "".
Proof.
  destruct v as [s|]; simpl; [|discriminate].
  destruct (String.eqb_spec s ""); [discriminate|].
  intros _. exists s. split; [reflexivity | assumption].
Qed.

Lemma or_null_truthy (v : option string) :
  truthy v = true -> or_null v = v.
Proof. intros H. unfold or_null. rewrite H. reflexivity. Qed.

(** [getUserInfo] writes the session at most once, at its very end: either
    [currentUser] is as before, or the call returned and stored a
    logged-in state carrying the identity's handle and a non-empty
    [moralisId]. *)
Lemma getUserInfo_currentUser (w : World) (user : Attr.t) (st : App) :
  currentUser (snd (getUserInfo w user st)) = currentUser st \/
  (fst (getUserInfo w user st) = Returned tt /\
   isLoggedIn (currentUser (snd (getUserInfo w user st))) = true /\
   truthy (moralisId (currentUser (snd (getUserInfo w user st)))) = true /\
   username (currentUser (snd (getUserInfo w user st))) = Attr.c4Username user).
Proof.
  unfold getUserInfo. unfold_effects.
  case_world; auto;
    right; cbn; repeat split;
    match goal with
    | H : negb (truthy ?m) = false |- truthy ?m = true =>
        apply negb_false_iff in H; exact H
    end.
Qed.

(** [getUserInfo] touches neither the wallet session, nor the router, nor
    the toasts. *)
Lemma getUserInfo_frame (w : World) (user : Attr.t) (st : App) :
  let st' := snd (getUserInfo w user st) in
  moralisUser st' = moralisUser st /\
  isAuthenticated st' = isAuthenticated st /\
  logoutCalls st' = logoutCalls st /\
  routes st' = routes st /\
  toasts st' = toasts st /\
  saved st' = saved st.
Proof.
  unfold getUserInfo. unfold_effects.
  case_world; cbn; auto 10.
Qed.

(** ** The session invariant *)

Lemma session_invariant_spec (s : UserState) :
  session_invariant s = true <->
  (isLoggedIn s = true <->
   truthy (moralisId s) = true /\ truthy (username s) = true).
Proof.
  unfold session_invariant.
  destruct (isLoggedIn s), (truthy (moralisId s)), (truthy (username s));
    simpl; intuition congruence.
Qed.

(** [getUserInfo] on an identity with a handle keeps the invariant,
    whatever the endpoints answer and whether it returns or throws. *)
Lemma getUserInfo_invariant (w : World) (user : Attr.t) (st : App) :
  truthy (Attr.c4Username user) = true ->
  session_invariant (currentUser st) = true ->
  session_invariant (currentUser (snd (getUserInfo w user st))) = true.
Proof.
  intros Hname Hinv.
  destruct (getUserInfo_currentUser w user st) as [Same | (_ & Hin & Hid & Hun)].
  - rewrite Same. exact Hinv.
  - unfold session_invariant. rewrite Hin, Hid, Hun, Hname. reflexivity.
Qed.

(** C3. [isLoggedIn] is true exactly when [moralisId] and [username] are
    both non-empty: this holds of [DEFAULT_STATE], and [getUserInfo], called
    as its callers do on an identity whose [c4Username] is non-empty, keeps
    it whatever the endpoints answer and whether it returns or throws. *)
Theorem session_invariant_preserved
    (w : World) (user : Attr.t) (st : App)
    (Hname : truthy (Attr.c4Username user) = true)
    (Hinv : isLoggedIn (currentUser st) = true <->
            truthy (moralisId (currentUser st)) = true /\
            truthy (username (currentUser st)) = true) :
  (isLoggedIn DEFAULT_STATE = true <->
   truthy (moralisId DEFAULT_STATE) = true /\
   truthy (username DEFAULT_STATE) = true) /\
  (isLoggedIn (currentUser (snd (getUserInfo w user st))) = true <->
   truthy (moralisId (currentUser (snd (getUserInfo w user st)))) = true /\
   truthy (username (currentUser (snd (getUserInfo w user st)))) = true).
Proof.
  split.
  - apply session_invariant_spec. reflexivity.
  - apply session_invariant_spec, getUserInfo_invariant; [exact Hname|].
    apply session_invariant_spec. exact Hinv.
Qed.

Lemma session_invariant_preserved_witness :
  isLoggedIn
    (currentUser (snd (getUserInfo Samples.w_ok Samples.alice Samples.app0)))
  = true <->
  truthy (moralisId
    (currentUser (snd (getUserInfo Samples.w_ok Samples.alice Samples.app0))))
  = true /\
  truthy (username
    (currentUser (snd (getUserInfo Samples.w_ok Samples.alice Samples.app0))))
  = true.
Proof.
  apply (session_invariant_preserved Samples.w_ok Samples.alice Samples.app0).
  - reflexivity.
  - simpl. split; [discriminate | intros [H _]; discriminate H].
Defined.

(** The callers only pass identities with a handle, so every operation of
    the provider keeps the invariant. *)
Lemma logUserOut_invariant (st : App) :
  session_invariant (currentUser (snd (logUserOut st))) = true.
Proof. reflexivity. Qed.

Lemma connectWallet_invariant (w : World) (st : App) :
  session_invariant (currentUser st) = true ->
  session_invariant (currentUser (snd (connectWallet w st))) = true.
Proof.
  intros Hinv. unfold connectWallet. unfold_effects.
  destruct (moralisUser st) as [user|] eqn:Eu; [|reflexivity].
  destruct (truthy (Attr.c4Username user)) eqn:Hname; cbn [negb].
  - (* the identity has a handle: [getUserInfo] runs *)
    destruct (Attr.handlesPendingConfirmation user); cbn.
    + match goal with
      | |- context [getUserInfo w user ?s] =>
          pose proof (getUserInfo_invariant w user s Hname Hinv) as H;
          destruct (getUserInfo w user s) as [[[]|e] s']; exact H
      end.
    + match goal with
      | |- context [getUserInfo w user ?s] =>
          pose proof (getUserInfo_invariant w user s Hname Hinv) as H;
          destruct (getUserInfo w user s) as [[[]|e] s']; exact H
      end.
  - (* no handle: the session is reset or left alone *)
    destruct (Attr.handlesPendingConfirmation user); cbn;
      case_world; cbn; auto.
Qed.

Lemma checkForUser_invariant (w : World) (st : App) :
  session_invariant (currentUser st) = true ->
  session_invariant (currentUser (snd (checkForUser w st))) = true.
Proof.
  intros Hinv. unfold checkForUser. unfold_effects.
  destruct (isAuthenticated st); cbn [negb]; [|reflexivity].
  destruct (moralisUser st) as [user|]; [|reflexivity].
  destruct (truthy (Attr.c4Username user)) eqn:Hname; [|exact Hinv].
  pose proof (getUserInfo_invariant w user st Hname Hinv) as H.
  destruct (getUserInfo w user st) as [[[]|e] s']; exact H.
Qed.

(** ** Profile resolution *)

(** C4. When the profile endpoint answers non-ok with the body
    [{error: "User not found"}], [getUserInfo] throws
    [RegistrationPending] and [setCurrentUser] is not called: the session
    is what it was, the empty sentinel included. *)
Theorem getUserInfo_user_not_found
    (w : World) (user : Attr.t) (st : App)
    (userResponse : Response (option Profile.t)) (body : Profile.t)
    (Hfetch : fetch_user w (get_user_url (Attr.c4Username user))
              = Resolves userResponse)
    (Hok : ok userResponse = false)
    (Hjson : json userResponse = Resolves (Some body))
    (Herror : Profile.error body = Some "User not found") :
  fst (getUserInfo w user st) = Threw (LoginError RegistrationPending) /\
  currentUser (snd (getUserInfo w user st)) = currentUser st /\
  (currentUser st = DEFAULT_STATE ->
   currentUser (snd (getUserInfo w user st)) = DEFAULT_STATE).
Proof.
  unfold getUserInfo. unfold_effects.
  rewrite Hfetch, Hok. cbn. rewrite Hjson. cbn. rewrite Herror. cbn.
  auto.
Qed.

Lemma getUserInfo_user_not_found_witness :
  fst (getUserInfo Samples.w_404 Samples.alice Samples.app0)
  = Threw (LoginError RegistrationPending) /\
  currentUser (snd (getUserInfo Samples.w_404 Samples.alice Samples.app0))
  = DEFAULT_STATE.
Proof.
  destruct (getUserInfo_user_not_found
              Samples.w_404 Samples.alice Samples.app0
              {| ok := false; status := 404;
                 url := get_user_url (Some "alice");
                 json := Resolves (Some Samples.record_not_found) |}
              Samples.record_not_found
              eq_refl eq_refl eq_refl eq_refl) as (Hthrow & _ & Hdefault).
  split; [exact Hthrow | exact (Hdefault eq_refl)].
Defined.

(** C5. When the profile endpoint answers ok with a record whose
    [moralisId] is missing or empty, [getUserInfo] throws
    [ConnectionPending] and [setCurrentUser] is not called. *)
Theorem getUserInfo_moralisId_missing
    (w : World) (user : Attr.t) (st : App)
    (userResponse : Response (option Profile.t)) (registeredUser : Profile.t)
    (Hfetch : fetch_user w (get_user_url (Attr.c4Username user))
              = Resolves userResponse)
    (Hok : ok userResponse = true)
    (Hjson : json userResponse = Resolves (Some registeredUser))
    (Hid : Profile.moralisId registeredUser = None \/
           Profile.moralisId registeredUser = Some "") :
  fst (getUserInfo w user st) = Threw (LoginError ConnectionPending) /\
  currentUser (snd (getUserInfo w user st)) = currentUser st /\
  (currentUser st = DEFAULT_STATE ->
   currentUser (snd (getUserInfo w user st)) = DEFAULT_STATE).
Proof.
  unfold getUserInfo. unfold_effects.
  rewrite Hfetch, Hok. cbn. rewrite Hjson. cbn.
  destruct Hid as [Hid | Hid]; rewrite Hid; cbn; auto.
Qed.

Lemma getUserInfo_moralisId_missing_witness :
  fst (getUserInfo Samples.w_unlinked Samples.alice Samples.app0)
  = Threw (LoginError ConnectionPending) /\
  currentUser (snd (getUserInfo Samples.w_unlinked Samples.alice Samples.app0))
  = DEFAULT_STATE.
Proof.
  destruct (getUserInfo_moralisId_missing
              Samples.w_unlinked Samples.alice Samples.app0
              {| ok := true; status := 200;
                 url := get_user_url (Some "alice");
                 json := Resolves (Some Samples.record_unlinked) |}
              Samples.record_unlinked
              eq_refl eq_refl eq_refl (or_introl eq_refl))
    as (Hthrow & _ & Hdefault).
  split; [exact Hthrow | exact (Hdefault eq_refl)].
Defined.

(** The answers that let [getUserInfo] get past the profile and the avatar
    steps, up to the team query. *)
Section ReachesTeamQuery.

Variables (w : World) (user : Attr.t).
Variables (userResponse : Response (option Profile.t))
          (registeredUser : Profile.t).

Hypothesis Hfetch :
  fetch_user w (get_user_url (Attr.c4Username user)) = Resolves userResponse.
Hypothesis Hok : ok userResponse = true.
Hypothesis Hjson : json userResponse = Resolves (Some registeredUser).
Hypothesis Hid : truthy (Profile.moralisId registeredUser) = true.

(** No image in the record: no probe. *)
Lemma getUserInfo_no_image (st : App)
    (teamsResponse : Response (list Team.t)) (teams : list Team.t) :
  truthy (Profile.image registeredUser) = false ->
  fetch_team w (get_team_url (Attr.c4Username user)) = Resolves teamsResponse ->
  teams_of teamsResponse = Resolves teams ->
  fst (getUserInfo w user st) = Returned tt /\
  currentUser (snd (getUserInfo w user st))
  = resolved_session user registeredUser (Profile.image registeredUser) teams /\
  requests (snd (getUserInfo w user st))
  = (requests st ++ [get_user_url (Attr.c4Username user);
                     get_team_url (Attr.c4Username user)])%list.
Proof.
  unfold teams_of. intros Himg Hteam Hteams.
  unfold getUserInfo. unfold_effects.
  rewrite Hfetch, Hok. cbn. rewrite Hjson. cbn. rewrite Hid. cbn.
  destruct (Profile.image registeredUser) as [path|] eqn:Epath.
  - cbn in Himg |- *. rewrite Himg. rewrite Hteam.
    destruct (Z.eqb (status teamsResponse) 200);
      [rewrite Hteams | injection Hteams as <-]; cbn;
      rewrite <- app_assoc; auto.
  - rewrite Hteam.
    destruct (Z.eqb (status teamsResponse) 200);
      [rewrite Hteams | injection Hteams as <-]; cbn;
      rewrite <- app_assoc; auto.
Qed.

(** An image in the record: the probe goes to the raw-content URL of the
    path without its first two characters. *)
Lemma getUserInfo_with_image (st : App) (path : string)
    (imgResponse : Response unit)
    (teamsResponse : Response (list Team.t)) (teams : list Team.t) :
  Profile.image registeredUser = Some path ->
  path <> "" ->
  fetch_raw w (raw_image_url (slice 2 path)) = Resolves imgResponse ->
  fetch_team w (get_team_url (Attr.c4Username user)) = Resolves teamsResponse ->
  teams_of teamsResponse = Resolves teams ->
  fst (getUserInfo w user st) = Returned tt /\
  currentUser (snd (getUserInfo w user st))
  = resolved_session user registeredUser
      (if ok imgResponse then Some (url imgResponse) else Some path) teams /\
  requests (snd (getUserInfo w user st))
  = (requests st ++ [get_user_url (Attr.c4Username user);
                     raw_image_url (slice 2 path);
                     get_team_url (Attr.c4Username user)])%list.
Proof.
  unfold teams_of. intros Epath Hpath Hraw Hteam Hteams.
  unfold getUserInfo. unfold_effects.
  rewrite Hfetch, Hok. cbn. rewrite Hjson. cbn. rewrite Hid. cbn.
  rewrite Epath.
  pose proof (truthy_Some_nonempty path Hpath) as Htruthy.
  cbn in Htruthy |- *. rewrite Htruthy.
  rewrite Hraw.
  destruct (ok imgResponse); rewrite Hteam;
    (destruct (Z.eqb (status teamsResponse) 200);
      [rewrite Hteams | injection Hteams as <-]); cbn;
    rewrite <- !app_assoc; auto.
Qed.

End ReachesTeamQuery.

(** C6. Once [getUserInfo] reaches the team query, a team response with
    any status other than 200 is not read: the call returns normally and
    the session it stores has [teams = []]. *)
Theorem getUserInfo_team_failure_is_empty
    (w : World) (user : Attr.t) (st : App)
    (userResponse : Response (option Profile.t)) (registeredUser : Profile.t)
    (teamsResponse : Response (list Team.t))
    (Hfetch : fetch_user w (get_user_url (Attr.c4Username user))
              = Resolves userResponse)
    (Hok : ok userResponse = true)
    (Hjson : json userResponse = Resolves (Some registeredUser))
    (Hid : truthy (Profile.moralisId registeredUser) = true)
    (Hprobe : forall path,
        Profile.image registeredUser = Some path -> path <> "" ->
        exists imgResponse,
          fetch_raw w (raw_image_url (slice 2 path)) = Resolves imgResponse)
    (Hteam : fetch_team w (get_team_url (Attr.c4Username user))
             = Resolves teamsResponse)
    (Hstatus : status teamsResponse <> 200%Z) :
  fst (getUserInfo w user st) = Returned tt /\
  teams (currentUser (snd (getUserInfo w user st))) = [] /\
  isLoggedIn (currentUser (snd (getUserInfo w user st))) = true.
Proof.
  assert (Hteams : teams_of teamsResponse = Resolves []).
  { unfold teams_of. apply Z.eqb_neq in Hstatus. rewrite Hstatus. reflexivity. }
  destruct (truthy (Profile.image registeredUser)) eqn:Himg.
  - destruct (truthy_true_inv _ Himg) as (path & Epath & Hpath).
    destruct (Hprobe path Epath Hpath) as (imgResponse & Hraw).
    destruct (getUserInfo_with_image w user userResponse registeredUser
                Hfetch Hok Hjson Hid st path imgResponse teamsResponse []
                Epath Hpath Hraw Hteam Hteams) as (Hret & Hcur & _).
    rewrite Hret, Hcur. auto.
  - destruct (getUserInfo_no_image w user userResponse registeredUser
                Hfetch Hok Hjson Hid st teamsResponse []
                Himg Hteam Hteams) as (Hret & Hcur & _).
    rewrite Hret, Hcur. auto.
Qed.

Lemma getUserInfo_team_failure_is_empty_witness :
  fst (getUserInfo Samples.w_team500 Samples.alice Samples.app0) = Returned tt /\
  teams (currentUser (snd (getUserInfo Samples.w_team500 Samples.alice
                                       Samples.app0))) = [] /\
  isLoggedIn (currentUser (snd (getUserInfo Samples.w_team500 Samples.alice
                                            Samples.app0))) = true.
Proof.
  apply (getUserInfo_team_failure_is_empty
           Samples.w_team500 Samples.alice Samples.app0
           {| ok := true; status := 200; url := get_user_url (Some "alice");
              json := Resolves (Some Samples.record_m1) |}
           Samples.record_m1
           {| ok := false; status := 500; url := get_team_url (Some "alice");
              json := Resolves [Samples.bob] |}).
  - reflexivity.
  - reflexivity.
  - reflexivity.
  - reflexivity.
  - intros path _ _. eexists. reflexivity.
  - reflexivity.
  - simpl. lia.
Defined.

(** C9. When the record carries a (non-empty) image path, [getUserInfo]
    probes the raw-content URL built from the path without its leading
    two characters; the stored [img] is the URL of the probe's response
    when the probe is ok, and the original path when it is not. *)
Theorem getUserInfo_avatar_resolution
    (w : World) (user : Attr.t) (st : App)
    (userResponse : Response (option Profile.t)) (registeredUser : Profile.t)
    (path : string) (imgResponse : Response unit)
    (teamsResponse : Response (list Team.t)) (teamList : list Team.t)
    (Hfetch : fetch_user w (get_user_url (Attr.c4Username user))
              = Resolves userResponse)
    (Hok : ok userResponse = true)
    (Hjson : json userResponse = Resolves (Some registeredUser))
    (Hid : truthy (Profile.moralisId registeredUser) = true)
    (Himage : Profile.image registeredUser = Some path)
    (Hpath : path <> "")
    (Hraw : fetch_raw w (raw_image_url (slice 2 path)) = Resolves imgResponse)
    (Hteam : fetch_team w (get_team_url (Attr.c4Username user))
             = Resolves teamsResponse)
    (Hteams : teams_of teamsResponse = Resolves teamList) :
  fst (getUserInfo w user st) = Returned tt /\
  requests (snd (getUserInfo w user st))
  = (requests st ++
       [get_user_url (Attr.c4Username user);
        ("https://raw.githubusercontent.com/code-423n4/code423n4.com/main/_data/handles/"
         ++ slice 2 path)%string;
        get_team_url (Attr.c4Username user)])%list /\
  (ok imgResponse = true ->
   img (currentUser (snd (getUserInfo w user st)))
   = or_null (Some (url imgResponse))) /\
  (ok imgResponse = true -> url imgResponse <> "" ->
   img (currentUser (snd (getUserInfo w user st))) = Some (url imgResponse)) /\
  (ok imgResponse = false ->
   img (currentUser (snd (getUserInfo w user st))) = Some path).
Proof.
  destruct (getUserInfo_with_image w user userResponse registeredUser
              Hfetch Hok Hjson Hid st path imgResponse teamsResponse teamList
              Himage Hpath Hraw Hteam Hteams) as (Hret & Hcur & Hreq).
  rewrite Hret, Hcur, Hreq. cbn [img resolved_session].
  repeat split.
  - intros ->. reflexivity.
  - intros -> Hurl. apply or_null_truthy, truthy_Some_nonempty, Hurl.
  - intros ->. apply or_null_truthy, truthy_Some_nonempty, Hpath.
Qed.

Lemma getUserInfo_avatar_resolution_witness :
  img (currentUser (snd (getUserInfo Samples.w_ok Samples.alice Samples.app0)))
  = Some Samples.resolved_png /\
  img (currentUser (snd (getUserInfo Samples.w_raw404 Samples.alice
                                     Samples.app0)))
  = Some "./x.png".
Proof.
  split.
  - refine (proj1 (proj2 (proj2 (proj2
      (getUserInfo_avatar_resolution
         Samples.w_ok Samples.alice Samples.app0
         {| ok := true; status := 200; url := get_user_url (Some "alice");
            json := Resolves (Some Samples.record_m1) |}
         Samples.record_m1 "./x.png"
         {| ok := true; status := 200; url := Samples.resolved_png;
            json := Resolves tt |}
         {| ok := true; status := 200; url := get_team_url (Some "alice");
            json := Resolves [Samples.bob] |}
         [Samples.bob]
         eq_refl eq_refl eq_refl eq_refl eq_refl _ eq_refl eq_refl eq_refl))))
      eq_refl _); discriminate.
  - refine (proj2 (proj2 (proj2 (proj2
      (getUserInfo_avatar_resolution
         Samples.w_raw404 Samples.alice Samples.app0
         {| ok := true; status := 200; url := get_user_url (Some "alice");
            json := Resolves (Some Samples.record_m1) |}
         Samples.record_m1 "./x.png"
         {| ok := false; status := 404; url := Samples.resolved_png;
            json := Resolves tt |}
         {| ok := true; status := 200; url := get_team_url (Some "alice");
            json := Resolves [Samples.bob] |}
         [Samples.bob]
         eq_refl eq_refl eq_refl eq_refl eq_refl _ eq_refl eq_refl eq_refl))))
      eq_refl); discriminate.
Defined.

(** ** Logout *)

(** C7. From any state [logUserOut] returns normally, with [currentUser]
    set to [DEFAULT_STATE] and the wallet-auth session ended by one call of
    [logout]; nothing else changes. *)
Theorem logUserOut_resets (st : App) :
  fst (logUserOut st) = Returned tt /\
  currentUser (snd (logUserOut st)) = DEFAULT_STATE /\
  moralisUser (snd (logUserOut st)) = None /\
  isAuthenticated (snd (logUserOut st)) = false /\
  logoutCalls (snd (logUserOut st)) = S (logoutCalls st) /\
  routes (snd (logUserOut st)) = routes st /\
  toasts (snd (logUserOut st)) = toasts st.
Proof. repeat split. Qed.

(** ** Session restore *)

(** With an identity present, [checkForUser] never calls [logout]: a
    failure of [getUserInfo] is caught and dropped. *)
Lemma checkForUser_identity_keeps_wallet_session
    (w : World) (st : App) (user : Attr.t) :
  isAuthenticated st = true ->
  moralisUser st = Some user ->
  fst (checkForUser w st) = Returned tt /\
  logoutCalls (snd (checkForUser w st)) = logoutCalls st /\
  moralisUser (snd (checkForUser w st)) = Some user /\
  isAuthenticated (snd (checkForUser w st)) = true.
Proof.
  intros Hauth Huser. unfold checkForUser. unfold_effects.
  rewrite Hauth. cbn. rewrite Huser.
  destruct (truthy (Attr.c4Username user)); [|cbn; auto].
  destruct (getUserInfo_frame w user st) as (Hm & Ha & Hl & _).
  destruct (getUserInfo w user st) as [[[]|e] st']; cbn in *;
    rewrite Hm, Ha, Hl; auto.
Qed.

(** When the identity has a handle but no [moralisId] can be resolved for
    it, the session is left as it was. *)
Lemma checkForUser_unresolvable_keeps_session
    (w : World) (st : App) (user : Attr.t) :
  isAuthenticated st = true ->
  moralisUser st = Some user ->
  moralisId_resolvable w user = false ->
  currentUser (snd (checkForUser w st)) = currentUser st.
Proof.
  intros Hauth Huser Hres. unfold checkForUser. unfold_effects.
  rewrite Hauth. cbn. rewrite Huser.
  destruct (truthy (Attr.c4Username user)) eqn:Hname; [|reflexivity].
  destruct (getUserInfo_currentUser w user st) as [Same | (Hret & _ & _ & _)].
  - destruct (getUserInfo w user st) as [[[]|e] st']; exact Same.
  - exfalso. revert Hret Hres.
    unfold moralisId_resolvable, getUserInfo. unfold_effects.
    rewrite Hname. cbn [andb].
    destruct (fetch_user w (get_user_url (Attr.c4Username user)))
      as [userResponse|]; [|discriminate].
    destruct (ok userResponse); cbn [negb andb].
    + destruct (json userResponse) as [[registeredUser|]|]; try discriminate.
      intros Hret Hid. rewrite Hid in Hret. discriminate.
    + destruct (json userResponse) as [[body|]|]; try discriminate.
      destruct (strict_eq (Profile.error body) "User not found"); discriminate.
Qed.

(** C8, as stated, fails. On page load with alice authenticated and a
    profile record without [moralisId], [checkForUser] does not call
    [logout] and the wallet-auth session stays; and when a session was
    already stored, it is not reset either. *)
Lemma checkForUser_unresolvable_not_logged_out :
  isAuthenticated (Samples.signed_in Samples.alice) = true /\
  moralisUser (Samples.signed_in Samples.alice) = Some Samples.alice /\
  moralisId_resolvable Samples.w_unlinked Samples.alice = false /\
  ~ logged_out
      (snd (checkForUser Samples.w_unlinked (Samples.signed_in Samples.alice))) /\
  logoutCalls
    (snd (checkForUser Samples.w_unlinked (Samples.signed_in Samples.alice))) = 0 /\
  ~ logged_out (snd (checkForUser Samples.w_unlinked Samples.logged_in_alice)) /\
  currentUser (snd (checkForUser Samples.w_unlinked Samples.logged_in_alice))
  = Samples.alice_session.
Proof.
  repeat split; try reflexivity.
  - intros (_ & Hnone & _). vm_compute in Hnone. discriminate.
  - intros (Hdefault & _). vm_compute in Hdefault. discriminate.
Qed.

(** C8, amended. When [isAuthenticated] is set but the SDK has no current
    user, [checkForUser] logs out: [currentUser] becomes [DEFAULT_STATE]
    and [logout] is called once. *)
Theorem checkForUser_no_identity_logs_out
    (w : World) (st : App)
    (Hauth : isAuthenticated st = true)
    (Hnone : moralisUser st = None) :
  fst (checkForUser w st) = Returned tt /\
  logged_out (snd (checkForUser w st)) /\
  logoutCalls (snd (checkForUser w st)) = S (logoutCalls st).
Proof.
  unfold checkForUser, logged_out. unfold_effects.
  rewrite Hauth. cbn. rewrite Hnone. cbn. auto.
Qed.

Lemma checkForUser_no_identity_logs_out_witness :
  logged_out (snd (checkForUser Samples.w_ok Samples.stale_alice)).
Proof.
  apply (checkForUser_no_identity_logs_out Samples.w_ok Samples.stale_alice);
    reflexivity.
Defined.

(** ** Connecting the wallet *)

(** [connectWallet] emits no toast. *)
Lemma connectWallet_toasts (w : World) (st : App) :
  toasts (snd (connectWallet w st)) = toasts st.
Proof.
  unfold connectWallet. unfold_effects.
  destruct (moralisUser st) as [user|]; [|reflexivity].
  destruct (truthy (Attr.c4Username user)); cbn [negb].
  - destruct (Attr.handlesPendingConfirmation user); cbn;
      match goal with
      | |- context [getUserInfo w user ?s] =>
          destruct (getUserInfo_frame w user s) as (_ & _ & _ & _ & Ht & _);
          destruct (getUserInfo w user s) as [[[]|e] s']; exact Ht
      end.
  - destruct (Attr.handlesPendingConfirmation user); cbn;
      case_world; reflexivity.
Qed.

(** With the pending-confirmation marker set, the first thing
    [connectWallet] does is navigate to the confirmation route. *)
Lemma connectWallet_pending_navigates
    (w : World) (st : App) (user : Attr.t) (pending : list string) :
  moralisUser st = Some user ->
  Attr.handlesPendingConfirmation user = Some pending ->
  exists later,
    routes (snd (connectWallet w st))
    = (routes st ++ "/confirm-account" :: later)%list.
Proof.
  intros Huser Hpending. unfold connectWallet. unfold_effects.
  rewrite Huser, Hpending.
  destruct (truthy (Attr.c4Username user)); cbn [negb].
  - exists []. cbn.
    match goal with
    | |- context [getUserInfo w user ?s] =>
        destruct (getUserInfo_frame w user s) as (_ & _ & _ & Hr & _);
        destruct (getUserInfo w user s) as [[[]|e] s']; exact Hr
    end.
  - cbn. destruct (findUser w) as [[handles|]|]; cbn.
    + destruct handles as [|handle more]; cbn.
      * exists ["/register"]. rewrite <- app_assoc. reflexivity.
      * destruct (save w _); cbn.
        -- exists ["/confirm-account"]. rewrite <- app_assoc. reflexivity.
        -- exists []. reflexivity.
    + exists ["/register"]. rewrite <- app_assoc. reflexivity.
    + exists []. reflexivity.
Qed.

(** C1 fails on the code. Alice's identity carries both a handle and the
    pending-confirmation marker: [connectWallet] navigates to the
    confirmation route and then, with no [return] after the navigation,
    goes on to [getUserInfo], which replaces the session. *)
Theorem connectWallet_pending_falls_through :
  Attr.handlesPendingConfirmation Samples.alice_pending = Some ["alice"] /\
  currentUser (Samples.signed_in Samples.alice_pending) = DEFAULT_STATE /\
  fst (connectWallet Samples.w_pending (Samples.signed_in Samples.alice_pending))
  = Returned (Some "connected") /\
  routes (snd (connectWallet Samples.w_pending
                 (Samples.signed_in Samples.alice_pending)))
  = ["/confirm-account"] /\
  currentUser (snd (connectWallet Samples.w_pending
                      (Samples.signed_in Samples.alice_pending)))
  = Samples.alice_session /\
  isLoggedIn Samples.alice_session = true /\
  Samples.alice_session <> DEFAULT_STATE.
Proof.
  repeat split; try reflexivity. discriminate.
Qed.

(** C10. An identity without handle for whose address [findUser] answers
    at least one handle: [connectWallet] stores the handles on the
    identity as [handlesPendingConfirmation], saves it, navigates to the
    confirmation route and returns ["connected"], leaving the session
    alone; [handleLogin] therefore ends on the "Logged in" success toast. *)
Theorem connectWallet_found_handles_reports_success
    (w : World) (provider : Web3ProviderType) (st st0 : App)
    (user : Attr.t) (handles : list string)
    (Hcurrent : moralisUser st = Some user)
    (Hnoname : truthy (Attr.c4Username user) = false)
    (Hfound : findUser w = Resolves (Some handles))
    (Hsome : 1 <= List.length handles)
    (Hsave : save w (Attr.set_handlesPendingConfirmation handles user)
             = Resolves tt)
    (Hauth : authenticate w provider = Resolves (Some user)) :
  let st' := snd (connectWallet w st) in
  fst (connectWallet w st) = Returned (Some "connected") /\
  moralisUser st' = Some (Attr.set_handlesPendingConfirmation handles user) /\
  saved st' = (saved st ++ [Attr.set_handlesPendingConfirmation handles user])%list /\
  (exists earlier, routes st' = (routes st ++ earlier ++ ["/confirm-account"])%list) /\
  currentUser st' = currentUser st /\
  logoutCalls st' = logoutCalls st /\
  toasts (snd (handleLogin w provider st0))
  = (toasts st0 ++ [mkToast MsgLoggingIn TLoading;
                    mkToast MsgLoggedIn TSuccess])%list.
Proof.
  destruct handles as [|handle more]; [cbn in Hsome; lia|].
  cbv zeta. unfold handleLogin, connectWallet. unfold_effects.
  rewrite Hauth. cbn. rewrite Hcurrent, Hnoname, Hfound. cbn.
  rewrite Hsave.
  destruct (Attr.handlesPendingConfirmation user) as [pending|]; cbn;
    rewrite ?Hcurrent; cbn; rewrite <- ?app_assoc; repeat split.
  - exists ["/confirm-account"]. reflexivity.
  - exists []. reflexivity.
Qed.

Lemma connectWallet_found_handles_reports_success_witness :
  fst (connectWallet Samples.w_found (Samples.signed_in Samples.nameless))
  = Returned (Some "connected") /\
  toasts (snd (handleLogin Samples.w_found metamask Samples.app0))
  = [mkToast MsgLoggingIn TLoading; mkToast MsgLoggedIn TSuccess].
Proof.
  destruct (connectWallet_found_handles_reports_success
              Samples.w_found metamask
              (Samples.signed_in Samples.nameless) Samples.app0
              Samples.nameless ["carol"]
              eq_refl eq_refl eq_refl (le_n 1) eq_refl eq_refl)
    as (Hret & _ & _ & _ & _ & _ & Htoasts).
  split; [exact Hret | exact Htoasts].
Defined.

(** ** Login notifications *)

(** The state in which [handleLogin] calls [connectWallet] once the wallet
    has handed out [user]. *)
Lemma handleLogin_after_authenticate
    (w : World) (provider : Web3ProviderType) (st : App) (user : Attr.t) :
  authenticate w provider = Resolves (Some user) ->
  exists st1,
    toasts st1 = (toasts st ++ [mkToast MsgLoggingIn TLoading])%list /\
    moralisUser st1 = Some user /\
    currentUser st1 = currentUser st /\
    toasts (snd (handleLogin w provider st))
    = (toasts st1 ++
       match fst (connectWallet w st1) with
       | Returned connection =>
           if truthy connection
           then [mkToast MsgLoggedIn TSuccess]
           else [mkToast MsgRegisterAsWarden TError]
       | Threw (LoginError RegistrationPending) =>
           [mkToast MsgRegistrationPending TError]
       | Threw (LoginError ConnectionPending) =>
           [mkToast MsgConnectionPending TError;
            mkToast MsgSomethingWentWrong TError]
       | Threw _ => [mkToast MsgSomethingWentWrong TError]
       end)%list.
Proof.
  intros Hauth. unfold handleLogin. unfold_effects. rewrite Hauth. cbn.
  exists (mkApp (currentUser st) (Some user) true (logoutCalls st) (routes st)
                (toasts st ++ [mkToast MsgLoggingIn TLoading])%list
                (requests st) (saved st)).
  cbn [toasts moralisUser currentUser].
  split; [reflexivity|]. split; [reflexivity|]. split; [reflexivity|].
  match goal with
  | |- context [connectWallet w ?s] =>
      pose proof (connectWallet_toasts w s) as Ht;
      destruct (connectWallet w s) as [[connection|error] s']
  end; cbn in *.
  - destruct (truthy connection); cbn; rewrite Ht; reflexivity.
  - destruct error as [[]|name]; cbn; rewrite Ht, <- ?app_assoc; reflexivity.
Qed.

(** When the wallet does not hand out an identity there is one toast
    after the loading one. *)
Lemma handleLogin_not_authenticated
    (w : World) (provider : Web3ProviderType) (st : App) :
  (authenticate w provider = Resolves None ->
   toasts (snd (handleLogin w provider st))
   = (toasts st ++ [mkToast MsgLoggingIn TLoading;
                    mkToast MsgMustSign TError])%list /\
   currentUser (snd (handleLogin w provider st)) = currentUser st) /\
  (forall name, authenticate w provider = Rejects name ->
   toasts (snd (handleLogin w provider st))
   = (toasts st ++ [mkToast MsgLoggingIn TLoading;
                    mkToast MsgSomethingWentWrong TError])%list /\
   currentUser (snd (handleLogin w provider st)) = DEFAULT_STATE).
Proof.
  split; [intros Hauth | intros name Hauth];
    unfold handleLogin; unfold_effects; rewrite Hauth; cbn;
    rewrite <- app_assoc; auto.
Qed.

(** C2 fails on the code. When [connectWallet] throws [ConnectionPending]
    (alice's record has no [moralisId]), the branch for it lacks the
    [return] its [RegistrationPending] sibling has: [handleLogin] emits the
    pending-review notification and then the generic failure one, which
    replaces it. *)
Theorem handleLogin_connection_pending_two_notifications :
  fst (connectWallet Samples.w_unlinked (Samples.signed_in Samples.alice))
  = Threw (LoginError ConnectionPending) /\
  toasts (snd (handleLogin Samples.w_unlinked metamask Samples.app0))
  = [mkToast MsgLoggingIn TLoading;
     mkToast MsgConnectionPending TError;
     mkToast MsgSomethingWentWrong TError] /\
  List.length
    (filter login_notification
       (toasts (snd (handleLogin Samples.w_unlinked metamask Samples.app0))))
  = 2 /\
  toasts (snd (handleLogin Samples.w_404 metamask Samples.app0))
  = [mkToast MsgLoggingIn TLoading;
     mkToast MsgRegistrationPending TError].
Proof. repeat split. Qed.


(** * Further properties of the provider and the login component *)

(** ** Profile resolution, in full *)

(** X1. [getUserInfo] is all or nothing: either it throws and
    [currentUser] is exactly what it was, or it returns and [currentUser]
    is a complete logged-in session built from the identity and a profile
    record with a non-empty [moralisId]. *)
Theorem getUserInfo_all_or_nothing (w : World) (user : Attr.t) (st : App) :
  (exists e,
     fst (getUserInfo w user st) = Threw e /\
     currentUser (snd (getUserInfo w user st)) = currentUser st) \/
  (fst (getUserInfo w user st) = Returned tt /\
   exists registeredUser image teamList,
     truthy (Profile.moralisId registeredUser) = true /\
     currentUser (snd (getUserInfo w user st))
     = resolved_session user registeredUser image teamList).
Proof.
  unfold getUserInfo. unfold_effects.
  case_world;
    first
      [ left; eexists; split; reflexivity
      | right; split; [reflexivity|];
        match goal with
        | H : negb (truthy (Profile.moralisId ?r)) = false |- _ =>
            exists r; apply negb_false_iff in H;
            do 2 eexists; split; [exact H | reflexivity]
        end ].
Qed.

(** X2. [getUserInfo] touches nothing but the session and the network: the
    wallet session, the router, the toasts and the saved identities are as
    before, and it sends at most three requests, the first of which goes
    to the profile endpoint for the identity's handle. *)
Theorem getUserInfo_touches_session_and_network_only
    (w : World) (user : Attr.t) (st : App) :
  moralisUser (snd (getUserInfo w user st)) = moralisUser st /\
  isAuthenticated (snd (getUserInfo w user st)) = isAuthenticated st /\
  logoutCalls (snd (getUserInfo w user st)) = logoutCalls st /\
  routes (snd (getUserInfo w user st)) = routes st /\
  toasts (snd (getUserInfo w user st)) = toasts st /\
  saved (snd (getUserInfo w user st)) = saved st /\
  exists later,
    requests (snd (getUserInfo w user st))
    = (requests st ++ get_user_url (Attr.c4Username user) :: later)%list /\
    List.length later <= 2.
Proof.
  destruct (getUserInfo_frame w user st) as (Hm & Ha & Hl & Hr & Ht & Hs).
  repeat (split; [assumption|]).
  unfold getUserInfo. unfold_effects.
  case_world; cbn [snd requests];
    rewrite <- ?app_assoc; eexists; (split; [reflexivity | cbn; lia]).
Qed.

(** X3. A non-ok answer of the profile endpoint always makes
    [getUserInfo] throw without touching the session, and what it throws
    is [RegistrationPending] exactly when the body is an object whose
    [error] is "User not found"; it is never [ConnectionPending]. *)
Theorem getUserInfo_not_ok_classification
    (w : World) (user : Attr.t) (st : App)
    (userResponse : Response (option Profile.t))
    (Hfetch : fetch_user w (get_user_url (Attr.c4Username user))
              = Resolves userResponse)
    (Hok : ok userResponse = false) :
  exists e,
    fst (getUserInfo w user st) = Threw e /\
    currentUser (snd (getUserInfo w user st)) = currentUser st /\
    (e = LoginError RegistrationPending <->
     exists body,
       json userResponse = Resolves (Some body) /\
       Profile.error body = Some "User not found") /\
    e <> LoginError ConnectionPending.
Proof.
  unfold getUserInfo. unfold_effects.
  rewrite Hfetch, Hok. cbn.
  destruct (json userResponse) as [[body|]|name] eqn:Ejson; cbn.
  - destruct (strict_eq (Profile.error body) "User not found") eqn:Eerr; cbn.
    + exists (LoginError RegistrationPending).
      repeat split; try discriminate.
      intros _. exists body. split; [reflexivity|].
      unfold strict_eq in Eerr.
      destruct (Profile.error body) as [x|]; [|discriminate].
      apply String.eqb_eq in Eerr. rewrite Eerr. reflexivity.
    + exists (LoginError Unknown).
      repeat split; try discriminate.
      intros (body' & Hbody & Herr). injection Hbody as <-.
      rewrite Herr in Eerr. discriminate.
  - exists (JsError "TypeError").
    repeat split; try discriminate.
    intros (body & Hbody & _). discriminate.
  - exists (JsError name).
    repeat split; try discriminate.
    intros (body & Hbody & _). discriminate.
Qed.

Lemma getUserInfo_not_ok_classification_witness :
  exists e,
    fst (getUserInfo MoreSamples.w_500 Samples.alice Samples.app0) = Threw e /\
    currentUser (snd (getUserInfo MoreSamples.w_500 Samples.alice Samples.app0))
    = currentUser Samples.app0 /\
    (e = LoginError RegistrationPending <->
     exists body,
       Resolves (Some MoreSamples.record_internal) = Resolves (Some body) /\
       Profile.error body = Some "User not found") /\
    e <> LoginError ConnectionPending.
Proof.
  exact (getUserInfo_not_ok_classification
           MoreSamples.w_500 Samples.alice Samples.app0
           {| ok := false; status := 500; url := get_user_url (Some "alice");
              json := Resolves (Some MoreSamples.record_internal) |}
           eq_refl eq_refl).
Defined.

(** X4. An ok answer of the profile endpoint whose body is the JSON value
    [null] counts as a pending registration: [getUserInfo] throws
    [RegistrationPending] after that single request, session untouched. *)
Theorem getUserInfo_null_record
    (w : World) (user : Attr.t) (st : App)
    (userResponse : Response (option Profile.t))
    (Hfetch : fetch_user w (get_user_url (Attr.c4Username user))
              = Resolves userResponse)
    (Hok : ok userResponse = true)
    (Hjson : json userResponse = Resolves None) :
  fst (getUserInfo w user st) = Threw (LoginError RegistrationPending) /\
  currentUser (snd (getUserInfo w user st)) = currentUser st /\
  requests (snd (getUserInfo w user st))
  = (requests st ++ [get_user_url (Attr.c4Username user)])%list.
Proof.
  unfold getUserInfo. unfold_effects.
  rewrite Hfetch, Hok. cbn. rewrite Hjson. cbn. auto.
Qed.

Lemma getUserInfo_null_record_witness :
  fst (getUserInfo MoreSamples.w_null Samples.alice Samples.app0)
  = Threw (LoginError RegistrationPending).
Proof.
  exact (proj1 (getUserInfo_null_record
                  MoreSamples.w_null Samples.alice Samples.app0
                  {| ok := true; status := 200;
                     url := get_user_url (Some "alice");
                     json := Resolves None |}
                  eq_refl eq_refl eq_refl)).
Defined.

(** X5. A record without image, or with an empty one, is resolved without
    any request to the raw-content host: exactly the profile and the team
    requests are sent, the stored [img] is [null], and with a 200 team
    answer the stored [teams] are the parsed body. *)
Theorem getUserInfo_without_image
    (w : World) (user : Attr.t) (st : App)
    (userResponse : Response (option Profile.t)) (registeredUser : Profile.t)
    (teamsResponse : Response (list Team.t)) (teamList : list Team.t)
    (Hfetch : fetch_user w (get_user_url (Attr.c4Username user))
              = Resolves userResponse)
    (Hok : ok userResponse = true)
    (Hjson : json userResponse = Resolves (Some registeredUser))
    (Hid : truthy (Profile.moralisId registeredUser) = true)
    (Himage : Profile.image registeredUser = None \/
              Profile.image registeredUser = Some "")
    (Hteam : fetch_team w (get_team_url (Attr.c4Username user))
             = Resolves teamsResponse)
    (Hstatus : status teamsResponse = 200%Z)
    (Hteams : json teamsResponse = Resolves teamList) :
  fst (getUserInfo w user st) = Returned tt /\
  requests (snd (getUserInfo w user st))
  = (requests st ++ [get_user_url (Attr.c4Username user);
                     get_team_url (Attr.c4Username user)])%list /\
  img (currentUser (snd (getUserInfo w user st))) = None /\
  teams (currentUser (snd (getUserInfo w user st))) = teamList /\
  link (currentUser (snd (getUserInfo w user st)))
  = or_null (Profile.link registeredUser) /\
  moralisId (currentUser (snd (getUserInfo w user st)))
  = Profile.moralisId registeredUser.
Proof.
  assert (Hfalsy : truthy (Profile.image registeredUser) = false)
    by (destruct Himage as [-> | ->]; reflexivity).
  assert (Hlist : teams_of teamsResponse = Resolves teamList)
    by (unfold teams_of; rewrite Hstatus; exact Hteams).
  destruct (getUserInfo_no_image w user userResponse registeredUser
              Hfetch Hok Hjson Hid st teamsResponse teamList
              Hfalsy Hteam Hlist) as (Hret & Hcur & Hreq).
  rewrite Hret, Hcur, Hreq. cbn [img teams link moralisId resolved_session].
  repeat split. unfold or_null. rewrite Hfalsy. reflexivity.
Qed.

Lemma getUserInfo_without_image_witness :
  img (currentUser (snd (getUserInfo MoreSamples.w_plain Samples.alice
                                     Samples.app0))) = None /\
  teams (currentUser (snd (getUserInfo MoreSamples.w_plain Samples.alice
                                       Samples.app0))) = [Samples.bob].
Proof.
  destruct (getUserInfo_without_image
              MoreSamples.w_plain Samples.alice Samples.app0
              {| ok := true; status := 200; url := get_user_url (Some "alice");
                 json := Resolves (Some MoreSamples.record_plain) |}
              MoreSamples.record_plain
              {| ok := true; status := 200; url := get_team_url (Some "alice");
                 json := Resolves [Samples.bob] |}
              [Samples.bob]
              eq_refl eq_refl eq_refl eq_refl (or_introl eq_refl)
              eq_refl eq_refl eq_refl) as (_ & _ & Himg & Hteams & _).
  split; [exact Himg | exact Hteams].
Defined.

(** X6. The team query is only forgiving about the status: a 200 answer
    whose body cannot be parsed makes [getUserInfo] throw the parse error
    after all three steps, and no session is stored. *)
Theorem getUserInfo_team_body_unreadable
    (w : World) (user : Attr.t) (st : App)
    (userResponse : Response (option Profile.t)) (registeredUser : Profile.t)
    (teamsResponse : Response (list Team.t)) (name : string)
    (Hfetch : fetch_user w (get_user_url (Attr.c4Username user))
              = Resolves userResponse)
    (Hok : ok userResponse = true)
    (Hjson : json userResponse = Resolves (Some registeredUser))
    (Hid : truthy (Profile.moralisId registeredUser) = true)
    (Hprobe : forall path,
        Profile.image registeredUser = Some path -> path <> "" ->
        exists imgResponse,
          fetch_raw w (raw_image_url (slice 2 path)) = Resolves imgResponse)
    (Hteam : fetch_team w (get_team_url (Attr.c4Username user))
             = Resolves teamsResponse)
    (Hstatus : status teamsResponse = 200%Z)
    (Hteams : json teamsResponse = Rejects name) :
  fst (getUserInfo w user st) = Threw (JsError name) /\
  currentUser (snd (getUserInfo w user st)) = currentUser st.
Proof.
  unfold getUserInfo. unfold_effects.
  rewrite Hfetch, Hok. cbn. rewrite Hjson. cbn. rewrite Hid. cbn.
  destruct (Profile.image registeredUser) as [path|] eqn:Epath.
  - destruct (String.eqb_spec path "") as [Hempty | Hpath]; cbn.
    + rewrite Hteam, Hstatus. cbn. rewrite Hteams. cbn. auto.
    + destruct (Hprobe path eq_refl Hpath) as (imgResponse & Hraw).
      rewrite Hraw.
      destruct (ok imgResponse); rewrite Hteam, Hstatus; cbn;
        rewrite Hteams; cbn; auto.
  - rewrite Hteam, Hstatus. cbn. rewrite Hteams. cbn. auto.
Qed.

Lemma getUserInfo_team_body_unreadable_witness :
  fst (getUserInfo MoreSamples.w_team_garbled Samples.alice Samples.app0)
  = Threw (JsError "Unexpected token < in JSON") /\
  currentUser (snd (getUserInfo MoreSamples.w_team_garbled Samples.alice
                                Samples.app0)) = DEFAULT_STATE.
Proof.
  apply (getUserInfo_team_body_unreadable
           MoreSamples.w_team_garbled Samples.alice Samples.app0
           {| ok := true; status := 200; url := get_user_url (Some "alice");
              json := Resolves (Some Samples.record_m1) |}
           Samples.record_m1
           {| ok := true; status := 200; url := get_team_url (Some "alice");
              json := Rejects "Unexpected token < in JSON" |}
           "Unexpected token < in JSON").
  - reflexivity.
  - reflexivity.
  - reflexivity.
  - reflexivity.
  - intros path _ _. eexists. reflexivity.
  - reflexivity.
  - reflexivity.
  - reflexivity.
Defined.

(** X7. Keeping the original image path only covers a probe that answers
    not-ok: when the probe request itself is rejected, [getUserInfo]
    throws that error, never asks for the teams and stores no session. *)
Theorem getUserInfo_probe_rejected
    (w : World) (user : Attr.t) (st : App)
    (userResponse : Response (option Profile.t)) (registeredUser : Profile.t)
    (path name : string)
    (Hfetch : fetch_user w (get_user_url (Attr.c4Username user))
              = Resolves userResponse)
    (Hok : ok userResponse = true)
    (Hjson : json userResponse = Resolves (Some registeredUser))
    (Hid : truthy (Profile.moralisId registeredUser) = true)
    (Himage : Profile.image registeredUser = Some path)
    (Hpath : path <> "")
    (Hraw : fetch_raw w (raw_image_url (slice 2 path)) = Rejects name) :
  fst (getUserInfo w user st) = Threw (JsError name) /\
  currentUser (snd (getUserInfo w user st)) = currentUser st /\
  requests (snd (getUserInfo w user st))
  = (requests st ++ [get_user_url (Attr.c4Username user);
                     raw_image_url (slice 2 path)])%list.
Proof.
  unfold getUserInfo. unfold_effects.
  rewrite Hfetch, Hok. cbn. rewrite Hjson. cbn. rewrite Hid. cbn.
  rewrite Himage.
  pose proof (truthy_Some_nonempty path Hpath) as Htruthy.
  cbn in Htruthy |- *. rewrite Htruthy.
  rewrite Hraw. cbn. rewrite <- app_assoc. auto.
Qed.

Lemma getUserInfo_probe_rejected_witness :
  fst (getUserInfo MoreSamples.w_probe_down Samples.alice Samples.app0)
  = Threw (JsError "Failed to fetch") /\
  currentUser (snd (getUserInfo MoreSamples.w_probe_down Samples.alice
                                Samples.app0)) = DEFAULT_STATE.
Proof.
  destruct (getUserInfo_probe_rejected
              MoreSamples.w_probe_down Samples.alice Samples.app0
              {| ok := true; status := 200; url := get_user_url (Some "alice");
                 json := Resolves (Some Samples.record_m1) |}
              Samples.record_m1 "./x.png" "Failed to fetch"
              eq_refl eq_refl eq_refl eq_refl eq_refl
              ltac:(discriminate) eq_refl) as (Hthrow & Hsame & _).
  split; [exact Hthrow | exact Hsame].
Defined.

(** ** Connecting the wallet, in full *)

(** What the result of [connectWallet] tells about the state it leaves. *)
Lemma connectWallet_result (w : World) (st : App) :
  match fst (connectWallet w st) with
  | Returned None =>
      logged_out (snd (connectWallet w st)) /\
      logoutCalls (snd (connectWallet w st)) = S (logoutCalls st)
  | Returned (Some connection) =>
      connection = "connected" /\
      logoutCalls (snd (connectWallet w st)) = logoutCalls st /\
      isAuthenticated (snd (connectWallet w st)) = isAuthenticated st /\
      moralisUser (snd (connectWallet w st)) <> None
  | Threw _ =>
      logoutCalls (snd (connectWallet w st)) = logoutCalls st
  end.
Proof.
  unfold connectWallet, logged_out. unfold_effects.
  destruct (moralisUser st) as [user|] eqn:Euser; [|cbn; auto].
  destruct (truthy (Attr.c4Username user)); cbn [negb].
  - destruct (Attr.handlesPendingConfirmation user); cbn;
      match goal with
      | |- context [getUserInfo w user ?s] =>
          destruct (getUserInfo_frame w user s) as (Hm & Ha & Hl & _);
          destruct (getUserInfo w user s) as [[[]|e] s']; cbn in *;
          rewrite ?Hm, ?Ha, ?Hl, ?Euser; repeat split; discriminate
      end.
  - destruct (Attr.handlesPendingConfirmation user); cbn;
      (destruct (findUser w) as [[[|handle more]|]|name]; cbn;
       [auto | | auto | auto]);
      (destruct (save w _); cbn; rewrite ?Euser; cbn;
       repeat split; discriminate).
Qed.

(** X8. [connectWallet] returns either ["connected"] or [undefined], and
    [undefined] only after it has logged the user out (session reset to
    [DEFAULT_STATE], wallet-auth session ended); a ["connected"] result or
    a throw comes without any call of [logout], and after ["connected"]
    the SDK still holds an identity. *)
Theorem connectWallet_undefined_only_after_logout (w : World) (st : App) :
  match fst (connectWallet w st) with
  | Returned None =>
      logged_out (snd (connectWallet w st)) /\
      logoutCalls (snd (connectWallet w st)) = S (logoutCalls st)
  | Returned (Some connection) =>
      connection = "connected" /\
      logoutCalls (snd (connectWallet w st)) = logoutCalls st /\
      moralisUser (snd (connectWallet w st)) <> None
  | Threw _ =>
      logoutCalls (snd (connectWallet w st)) = logoutCalls st
  end.
Proof.
  pose proof (connectWallet_result w st) as H.
  destruct (fst (connectWallet w st)) as [[connection|]|e]; intuition.
Qed.

(** X9. For an identity without handle whose address [findUser] knows no
    handle for (a falsy answer or an empty array), [connectWallet] logs
    out, ends on the registration route, neither fetches nor saves, and
    returns [undefined]; [handleLogin] then shows "Please register as
    warden". *)
Theorem connectWallet_unknown_address_registers
    (w : World) (provider : Web3ProviderType) (st st0 : App)
    (user : Attr.t) (found : option (list string))
    (Hcurrent : moralisUser st = Some user)
    (Hnoname : truthy (Attr.c4Username user) = false)
    (Hfound : findUser w = Resolves found)
    (Hnone : found = None \/ found = Some [])
    (Hauth : authenticate w provider = Resolves (Some user)) :
  fst (connectWallet w st) = Returned None /\
  logged_out (snd (connectWallet w st)) /\
  (exists earlier,
     routes (snd (connectWallet w st))
     = (routes st ++ earlier ++ ["/register"])%list) /\
  requests (snd (connectWallet w st)) = requests st /\
  saved (snd (connectWallet w st)) = saved st /\
  toasts (snd (handleLogin w provider st0))
  = (toasts st0 ++ [mkToast MsgLoggingIn TLoading;
                    mkToast MsgRegisterAsWarden TError])%list.
Proof.
  unfold handleLogin, connectWallet, logged_out. unfold_effects.
  rewrite Hauth. cbn. rewrite Hcurrent, Hnoname, Hfound. cbn.
  destruct Hnone as [-> | ->];
    destruct (Attr.handlesPendingConfirmation user) as [pending|]; cbn;
    rewrite <- ?app_assoc; repeat split;
    solve [ exists ["/confirm-account"]; reflexivity
          | exists []; reflexivity ].
Qed.

Lemma connectWallet_unknown_address_registers_witness :
  fst (connectWallet MoreSamples.w_stranger (Samples.signed_in Samples.nameless))
  = Returned None /\
  toasts (snd (handleLogin MoreSamples.w_stranger metamask Samples.app0))
  = [mkToast MsgLoggingIn TLoading; mkToast MsgRegisterAsWarden TError].
Proof.
  destruct (connectWallet_unknown_address_registers
              MoreSamples.w_stranger metamask
              (Samples.signed_in Samples.nameless) Samples.app0
              Samples.nameless (Some [])
              eq_refl eq_refl eq_refl (or_intror eq_refl) eq_refl)
    as (Hret & _ & _ & _ & _ & Htoasts).
  split; [exact Hret | exact Htoasts].
Defined.

(** X10. [connectWallet] navigates at most twice, and only to the
    confirmation route or to the registration route. *)
Theorem connectWallet_routes (w : World) (st : App) :
  exists visited,
    routes (snd (connectWallet w st)) = (routes st ++ visited)%list /\
    List.length visited <= 2 /\
    Forall (fun route => route = "/confirm-account" \/ route = "/register")
           visited.
Proof.
  unfold connectWallet. unfold_effects.
  destruct (moralisUser st) as [user|]; cbn.
  2:{ exists []. rewrite app_nil_r. repeat split; auto. }
  destruct (truthy (Attr.c4Username user)); cbn [negb].
  - destruct (Attr.handlesPendingConfirmation user); cbn;
      match goal with
      | |- context [getUserInfo w user ?s] =>
          destruct (getUserInfo_frame w user s) as (_ & _ & _ & Hr & _);
          destruct (getUserInfo w user s) as [[[]|e] s']; cbn in *;
          rewrite Hr
      end;
      solve [ exists ["/confirm-account"]; repeat split; auto
            | exists []; rewrite app_nil_r; repeat split; auto ].
  - destruct (Attr.handlesPendingConfirmation user); cbn;
      (destruct (findUser w) as [[[|handle more]|]|name]; cbn;
       [ | destruct (save w _); cbn | | ]);
      rewrite <- ?app_assoc; cbn;
      solve [ eexists; split; [reflexivity|]; split; [cbn; lia|];
              repeat constructor; auto
            | exists []; rewrite app_nil_r; repeat split; auto ].
Qed.

(** A navigation before [getUserInfo] changes neither its result nor the
    session it leaves. *)
Lemma getUserInfo_after_navigate
    (w : World) (user : Attr.t) (st : App) (to : string) :
  fst (getUserInfo w user (snd (navigate to st)))
  = fst (getUserInfo w user st) /\
  currentUser (snd (getUserInfo w user (snd (navigate to st))))
  = currentUser (snd (getUserInfo w user st)) /\
  routes (snd (getUserInfo w user (snd (navigate to st))))
  = (routes (snd (getUserInfo w user st)) ++ [to])%list.
Proof.
  unfold getUserInfo. unfold_effects. cbn.
  case_world; cbn; auto.
Qed.

(** The result and the session of [connectWallet] for an identity with a
    handle are those of [getUserInfo]. *)
Lemma connectWallet_with_handle
    (w : World) (st : App) (user : Attr.t) :
  moralisUser st = Some user ->
  truthy (Attr.c4Username user) = true ->
  fst (connectWallet w st)
  = match fst (getUserInfo w user st) with
    | Returned _ => Returned (Some "connected")
    | Threw e => Threw e
    end /\
  currentUser (snd (connectWallet w st))
  = currentUser (snd (getUserInfo w user st)).
Proof.
  intros Huser Hname.
  unfold connectWallet. unfold_effects. rewrite Huser, Hname. cbn [negb].
  destruct (Attr.handlesPendingConfirmation user) as [pending|]; cbn.
  - destruct (getUserInfo_after_navigate w user st "/confirm-account")
      as (Hfst & Hcur & _).
    unfold navigate, modify in Hfst, Hcur. cbn in Hfst, Hcur.
    match goal with
    | |- context [getUserInfo w user ?s] =>
        destruct (getUserInfo w user s) as [[[]|e] s']
    end; cbn in *; rewrite <- Hfst, <- Hcur; auto.
  - destruct (getUserInfo w user st) as [[[]|e] s']; cbn; auto.
Qed.

(** X11. For an identity with a handle, [connectWallet] adds nothing of
    its own to profile resolution: it returns ["connected"] exactly when
    [getUserInfo] returns, rethrows unchanged whatever [getUserInfo]
    throws, and leaves the session that [getUserInfo] leaves. *)
Theorem connectWallet_resolves_like_getUserInfo
    (w : World) (st : App) (user : Attr.t)
    (Hcurrent : moralisUser st = Some user)
    (Hname : truthy (Attr.c4Username user) = true) :
  (fst (connectWallet w st) = Returned (Some "connected") <->
   fst (getUserInfo w user st) = Returned tt) /\
  (forall e, fst (connectWallet w st) = Threw e <->
             fst (getUserInfo w user st) = Threw e) /\
  currentUser (snd (connectWallet w st))
  = currentUser (snd (getUserInfo w user st)).
Proof.
  destruct (connectWallet_with_handle w st user Hcurrent Hname) as (Hfst & Hcur).
  rewrite Hfst, Hcur.
  destruct (fst (getUserInfo w user st)) as [[]|e0];
    repeat split; intros; try congruence; try discriminate.
Qed.

Lemma connectWallet_resolves_like_getUserInfo_witness :
  fst (connectWallet Samples.w_unlinked (Samples.signed_in Samples.alice))
  = Threw (LoginError ConnectionPending).
Proof.
  apply (proj1 (proj2 (connectWallet_resolves_like_getUserInfo
                         Samples.w_unlinked (Samples.signed_in Samples.alice)
                         Samples.alice eq_refl eq_refl))).
  reflexivity.
Defined.

(** ** Session restore, in full *)

(** X12. [checkForUser] never throws, never navigates, never toasts and
    never saves; it calls [logout] in one situation only, when
    [isAuthenticated] is set while the SDK has no current user. *)
Theorem checkForUser_quiet (w : World) (st : App) :
  fst (checkForUser w st) = Returned tt /\
  routes (snd (checkForUser w st)) = routes st /\
  toasts (snd (checkForUser w st)) = toasts st /\
  saved (snd (checkForUser w st)) = saved st /\
  (logoutCalls (snd (checkForUser w st)) = logoutCalls st \/
   isAuthenticated st = true /\ moralisUser st = None).
Proof.
  unfold checkForUser. unfold_effects.
  destruct (isAuthenticated st) eqn:Eauth; cbn; [|auto 10].
  destruct (moralisUser st) as [user|] eqn:Euser; cbn; [|auto 10].
  destruct (truthy (Attr.c4Username user)); [|cbn; auto 10].
  destruct (getUserInfo_frame w user st) as (_ & _ & Hl & Hr & Ht & Hs).
  destruct (getUserInfo w user st) as [[[]|e] s']; cbn in *; auto 10.
Qed.

(** X13. On restore, an identity without handle is left alone: unlike
    [connectWallet], [checkForUser] then neither looks up handles nor
    logs out nor navigates; the whole state is as before. *)
Theorem checkForUser_without_handle_is_noop
    (w : World) (st : App) (user : Attr.t)
    (Hauth : isAuthenticated st = true)
    (Hcurrent : moralisUser st = Some user)
    (Hnoname : truthy (Attr.c4Username user) = false) :
  checkForUser w st = (Returned tt, st).
Proof.
  unfold checkForUser. unfold_effects.
  rewrite Hauth. cbn. rewrite Hcurrent, Hnoname. reflexivity.
Qed.

Lemma checkForUser_without_handle_is_noop_witness :
  checkForUser Samples.w_found (Samples.signed_in Samples.nameless)
  = (Returned tt, Samples.signed_in Samples.nameless).
Proof.
  apply (checkForUser_without_handle_is_noop
           Samples.w_found (Samples.signed_in Samples.nameless)
           Samples.nameless); reflexivity.
Defined.

(** X14. Restore and login resolve the same session: for an authenticated
    identity with a handle, [checkForUser] leaves exactly the
    [currentUser] that [connectWallet] leaves from the same state. *)
Theorem checkForUser_restores_login_session
    (w : World) (st : App) (user : Attr.t)
    (Hauth : isAuthenticated st = true)
    (Hcurrent : moralisUser st = Some user)
    (Hname : truthy (Attr.c4Username user) = true) :
  currentUser (snd (checkForUser w st))
  = currentUser (snd (connectWallet w st)).
Proof.
  destruct (connectWallet_with_handle w st user Hcurrent Hname) as (_ & Hcur).
  rewrite Hcur.
  unfold checkForUser. unfold_effects.
  rewrite Hauth. cbn. rewrite Hcurrent, Hname.
  destruct (getUserInfo w user st) as [[[]|e] s']; reflexivity.
Qed.

Lemma checkForUser_restores_login_session_witness :
  currentUser (snd (checkForUser Samples.w_ok (Samples.signed_in Samples.alice)))
  = currentUser (snd (connectWallet Samples.w_ok
                        (Samples.signed_in Samples.alice))).
Proof.
  apply (checkForUser_restores_login_session
           Samples.w_ok (Samples.signed_in Samples.alice) Samples.alice);
    reflexivity.
Defined.

(** ** Login, in full *)

(** X15. [handleLogin] never throws: whatever the wallet and the backend
    do, every failure ends in a notification. *)
Theorem handleLogin_never_throws
    (w : World) (provider : Web3ProviderType) (st : App) :
  fst (handleLogin w provider st) = Returned tt.
Proof.
  unfold handleLogin. unfold_effects.
  destruct (authenticate w provider) as [[user|]|name]; cbn; try reflexivity.
  match goal with
  | |- context [connectWallet w ?s] =>
      destruct (connectWallet w s) as [[connection|error] s']
  end; cbn.
  - destruct (truthy connection); reflexivity.
  - destruct (is_login_error error RegistrationPending); cbn; [reflexivity|].
    destruct (is_login_error error ConnectionPending); reflexivity.
Qed.

(** X16. The outcomes of a login attempt. After the loading toast,
    [handleLogin] ends in one of three ways: the user declined to sign
    (one "must sign" toast; session, wallet session and logout count
    untouched); success (one "Logged in" toast, no logout, the SDK holds
    an identity); or a failure, shown as "register as warden", the
    pending-registration message, the pending-review message followed by
    the generic one, or the generic one alone, and in every failure the
    user has been logged out. *)
Theorem handleLogin_outcomes
    (w : World) (provider : Web3ProviderType) (st : App) :
  exists shown,
    toasts (snd (handleLogin w provider st))
    = (toasts st ++ mkToast MsgLoggingIn TLoading :: shown)%list /\
    ((shown = [mkToast MsgMustSign TError] /\
      currentUser (snd (handleLogin w provider st)) = currentUser st /\
      moralisUser (snd (handleLogin w provider st)) = moralisUser st /\
      logoutCalls (snd (handleLogin w provider st)) = logoutCalls st) \/
     (shown = [mkToast MsgLoggedIn TSuccess] /\
      isAuthenticated (snd (handleLogin w provider st)) = true /\
      moralisUser (snd (handleLogin w provider st)) <> None /\
      logoutCalls (snd (handleLogin w provider st)) = logoutCalls st) \/
     ((shown = [mkToast MsgRegisterAsWarden TError] \/
       shown = [mkToast MsgRegistrationPending TError] \/
       shown = [mkToast MsgConnectionPending TError;
                mkToast MsgSomethingWentWrong TError] \/
       shown = [mkToast MsgSomethingWentWrong TError]) /\
      logged_out (snd (handleLogin w provider st)))).
Proof.
  unfold handleLogin, logged_out. unfold_effects.
  destruct (authenticate w provider) as [[user|]|name]; cbn.
  - match goal with
    | |- context [connectWallet w ?s] =>
        pose proof (connectWallet_toasts w s) as Ht;
        pose proof (connectWallet_result w s) as Hres;
        destruct (connectWallet w s) as [[[connection|]|error] s']
    end; cbn in *.
    + destruct Hres as (-> & Hl & Ha & Hm). cbn.
      eexists. rewrite Ht, <- app_assoc. split; [reflexivity|].
      right; left. auto.
    + destruct Hres as (Hout & _). unfold logged_out in Hout.
      eexists. rewrite Ht, <- app_assoc. split; [reflexivity|].
      right; right. split; [left; reflexivity | exact Hout].
    + destruct error as [[]|name]; cbn;
        eexists; rewrite Ht, <- ?app_assoc; (split; [reflexivity|]);
        right; right; split; auto.
  - eexists. rewrite <- app_assoc. split; [reflexivity|]. left. auto.
  - eexists. rewrite <- app_assoc. split; [reflexivity|].
    right; right. split; auto.
Qed.

(** X17. Every operation of the provider and of the login component keeps
    the session invariant ([isLoggedIn] exactly when [moralisId] and
    [username] are both non-empty): [logUserOut], [connectWallet],
    [checkForUser] and [handleLogin] lead from a state that satisfies it
    to a state that satisfies it, whatever the environment answers. *)
Theorem operations_keep_session_invariant
    (w : World) (provider : Web3ProviderType) (st : App)
    (Hinv : session_invariant (currentUser st) = true) :
  session_invariant (currentUser (snd (logUserOut st))) = true /\
  session_invariant (currentUser (snd (connectWallet w st))) = true /\
  session_invariant (currentUser (snd (checkForUser w st))) = true /\
  session_invariant (currentUser (snd (handleLogin w provider st))) = true.
Proof.
  split; [reflexivity|].
  split; [apply connectWallet_invariant; exact Hinv|].
  split; [apply checkForUser_invariant; exact Hinv|].
  unfold handleLogin. unfold_effects.
  destruct (authenticate w provider) as [[user|]|name]; cbn;
    [ | exact Hinv | reflexivity].
  match goal with
  | |- context [connectWallet w ?s] =>
      pose proof (connectWallet_invariant w s Hinv) as Hstep;
      destruct (connectWallet w s) as [[connection|error] s']
  end; cbn in *.
  - destruct (truthy connection); exact Hstep.
  - destruct (is_login_error error RegistrationPending); cbn; [reflexivity|].
    destruct (is_login_error error ConnectionPending); reflexivity.
Qed.

Lemma operations_keep_session_invariant_witness :
  session_invariant
    (currentUser (snd (handleLogin Samples.w_ok metamask Samples.app0))) = true.
Proof.
  apply (operations_keep_session_invariant Samples.w_ok metamask Samples.app0).
  reflexivity.
Defined.

(** ** Account change *)

Ltac unfold_page_effects :=
  unfold run_action, linkAccount, Moralis_link_account, checkForUser_effect,
    toast_error, showModal, catching, and_then, lift in *;
  unfold_effects.

(** X18. The account-change listener never throws, never touches
    [currentUser], never links an account itself and never navigates. It
    ends in exactly one of two ways: it shows the confirmation modal,
    whose primary button links the new account and whose secondary button
    logs out, and leaves the wallet session and the toasts alone; or it
    emits one error toast and calls [logout] once, leaving the modal as
    it was. *)
Theorem onAccountChanged_outcomes
    (sdk : MoralisSDK) (account : string) (p : Page) :
  fst (onAccountChanged sdk account p) = Returned tt /\
  currentUser (app (snd (onAccountChanged sdk account p)))
  = currentUser (app p) /\
  linked (snd (onAccountChanged sdk account p)) = linked p /\
  routes (app (snd (onAccountChanged sdk account p))) = routes (app p) /\
  ((exists m username,
      modal (snd (onAccountChanged sdk account p)) = Some m /\
      primaryButtonAction m = ActionLinkAccount account username /\
      secondaryButtonAction m = ActionLogout /\
      errors (snd (onAccountChanged sdk account p)) = errors p /\
      app (snd (onAccountChanged sdk account p)) = app p) \/
   (exists message,
      modal (snd (onAccountChanged sdk account p)) = modal p /\
      errors (snd (onAccountChanged sdk account p))
      = (errors p ++ [message])%list /\
      logoutCalls (app (snd (onAccountChanged sdk account p)))
      = S (logoutCalls (app p)) /\
      moralisUser (app (snd (onAccountChanged sdk account p))) = None /\
      isAuthenticated (app (snd (onAccountChanged sdk account p))) = false)).
Proof.
  unfold onAccountChanged. unfold_page_effects.
  destruct (moralisUser (app p)) as [user|]; cbn.
  - destruct (user_accounts sdk) as [[accounts|]|name]; cbn.
    + destruct (truthy (Attr.c4Username user)); cbn.
      * repeat split. left. do 2 eexists. repeat split.
      * repeat split. right. eexists. repeat split.
    + repeat split. right. eexists. repeat split.
    + repeat split. right. eexists. repeat split.
  - repeat split. right. eexists. repeat split.
Qed.

(** X19. For a registered identity with linked accounts, the listener only
    asks: it shows the modal "Link this address to your account", naming
    the handle and the new address, with the buttons "Link address" and
    "Logout"; nothing else changes, and in particular no account is
    linked before a button is pressed. *)
Theorem onAccountChanged_asks_before_linking
    (sdk : MoralisSDK) (account : string) (p : Page)
    (user : Attr.t) (handle : string) (accounts : list string)
    (Hcurrent : moralisUser (app p) = Some user)
    (Hhandle : Attr.c4Username user = Some handle)
    (Hnonempty : handle <> "")
    (Haccounts : user_accounts sdk = Resolves (Some accounts)) :
  modal (snd (onAccountChanged sdk account p))
  = Some {|
      title := "Link this address to your account";
      body :=
        [(handle ++ ", are you sure you want to link the address "
          ++ account ++ " to your account?")%string;
         "If you do not want to link the address to your account, you must log out"];
      primaryButtonText := "Link address";
      secondaryButtonText := "Logout";
      primaryButtonAction := ActionLinkAccount account handle;
      secondaryButtonAction := ActionLogout
    |} /\
  app (snd (onAccountChanged sdk account p)) = app p /\
  errors (snd (onAccountChanged sdk account p)) = errors p /\
  linked (snd (onAccountChanged sdk account p)) = linked p.
Proof.
  unfold onAccountChanged. unfold_page_effects.
  rewrite Hcurrent. cbn. rewrite Haccounts. cbn. rewrite Hhandle.
  rewrite (truthy_Some_nonempty handle Hnonempty). cbn.
  repeat split.
Qed.

Lemma onAccountChanged_asks_before_linking_witness :
  option_map primaryButtonAction
    (modal (snd (onAccountChanged AccountSamples.sdk_ok "0xb0b"
                   (AccountSamples.page Samples.logged_in_alice))))
  = Some (ActionLinkAccount "0xb0b" "alice").
Proof.
  rewrite (proj1 (onAccountChanged_asks_before_linking
                    AccountSamples.sdk_ok "0xb0b"
                    (AccountSamples.page Samples.logged_in_alice)
                    Samples.alice "alice" ["0xa11ce"]
                    eq_refl eq_refl ltac:(discriminate) eq_refl)).
  reflexivity.
Defined.

(** X20. The error toast of the listener tells the cause: "your wallet
    has been disconnected" when the SDK has no current user or the
    identity has no accounts, "Only registered users can link accounts"
    when the identity has accounts but no handle, the message of the
    error when reading the accounts throws, and no toast at all for a
    registered identity. *)
Theorem onAccountChanged_error_messages
    (sdk : MoralisSDK) (account : string) (p : Page) :
  errors (snd (onAccountChanged sdk account p))
  = (errors p ++
     match moralisUser (app p) with
     | None => [Some msg_wallet_disconnected]
     | Some user =>
         match user_accounts sdk with
         | Rejects message => [Some message]
         | Resolves None => [Some msg_wallet_disconnected]
         | Resolves (Some _) =>
             if truthy (Attr.c4Username user)
             then []
             else [Some msg_registered_users_only]
         end
     end)%list.
Proof.
  unfold onAccountChanged. unfold_page_effects.
  destruct (moralisUser (app p)) as [user|]; cbn; [|reflexivity].
  destruct (user_accounts sdk) as [[accounts|]|name]; cbn; try reflexivity.
  destruct (truthy (Attr.c4Username user)); cbn;
    [rewrite app_nil_r|]; reflexivity.
Qed.

(** X21. [linkAccount] never throws. When [Moralis.link] resolves the
    account is linked and nothing else happens; when it rejects, the
    account is not linked, [logout] is called once, and an error toast
    naming the handle is emitted exactly when the error's message is
    "this auth is already used". *)
Theorem linkAccount_outcomes
    (sdk : MoralisSDK) (account username : string) (p : Page) :
  fst (linkAccount sdk account username p) = Returned tt /\
  match Moralis_link sdk account with
  | Resolves _ =>
      snd (linkAccount sdk account username p)
      = mkPage (app p) (errors p) (modal p) (linked p ++ [account])%list
  | Rejects message =>
      linked (snd (linkAccount sdk account username p)) = linked p /\
      logoutCalls (app (snd (linkAccount sdk account username p)))
      = S (logoutCalls (app p)) /\
      moralisUser (app (snd (linkAccount sdk account username p))) = None /\
      errors (snd (linkAccount sdk account username p))
      = (errors p ++
         if String.eqb message "this auth is already used"
         then [Some (msg_already_linked username)]
         else [])%list
  end.
Proof.
  unfold_page_effects.
  destruct (Moralis_link sdk account) as [[]|message]; cbn.
  - split; reflexivity.
  - destruct (String.eqb message "this auth is already used"); cbn;
      rewrite ?app_nil_r; auto.
Qed.

(** X22. A logout forced by the listener leaves a stale session behind
    that only the restore effect clears: the listener itself never
    changes [currentUser], and unless it showed the modal (leaving [App]
    untouched), running [checkForUser] afterwards resets [currentUser]
    to [DEFAULT_STATE] without any request. *)
Theorem onAccountChanged_then_restore
    (sdk : MoralisSDK) (w : World) (account : string) (p : Page) :
  currentUser (app (snd (onAccountChanged sdk account p)))
  = currentUser (app p) /\
  (app (snd (onAccountChanged sdk account p)) = app p \/
   currentUser
     (app (snd (checkForUser_effect w (snd (onAccountChanged sdk account p)))))
   = DEFAULT_STATE /\
   requests
     (app (snd (checkForUser_effect w (snd (onAccountChanged sdk account p)))))
   = requests (app p)).
Proof.
  unfold onAccountChanged, checkForUser. unfold_page_effects.
  destruct (moralisUser (app p)) as [user|]; cbn; [|auto].
  destruct (user_accounts sdk) as [[accounts|]|name]; cbn; auto.
  destruct (truthy (Attr.c4Username user)); cbn; auto.
Qed.

(** X23. The two buttons of the modal. Either button returns normally and
    leaves [currentUser] alone. "Link address" that succeeds links the
    account and leaves [App] untouched; "Logout", or a link that fails,
    links nothing and ends the wallet session, after which the restore
    effect resets [currentUser] to [DEFAULT_STATE]. *)
Theorem run_action_outcomes
    (sdk : MoralisSDK) (w : World) (action : ModalAction) (p : Page) :
  fst (run_action sdk action p) = Returned tt /\
  currentUser (app (snd (run_action sdk action p))) = currentUser (app p) /\
  ((exists account username,
      action = ActionLinkAccount account username /\
      linked (snd (run_action sdk action p)) = (linked p ++ [account])%list /\
      app (snd (run_action sdk action p)) = app p) \/
   (linked (snd (run_action sdk action p)) = linked p /\
    isAuthenticated (app (snd (run_action sdk action p))) = false /\
    moralisUser (app (snd (run_action sdk action p))) = None /\
    currentUser
      (app (snd (checkForUser_effect w (snd (run_action sdk action p)))))
    = DEFAULT_STATE)).
Proof.
  unfold checkForUser. unfold_page_effects.
  destruct action as [account username|]; cbn.
  - destruct (Moralis_link sdk account) as [[]|message]; cbn.
    + repeat split. left. exists account, username. repeat split.
    + destruct (String.eqb message "this auth is already used"); cbn;
        auto 10.
  - auto 10.
Qed.


(** ** Root element *)

(** X24. [wrapRootElement] never mixes deployments: the server URL and the
    app id it hands to [MoralisProvider] are the two variables of one and
    the same deployment, which is staging exactly when [NODE_ENV] is
    "staging", production exactly when it is "production", and dev for
    every other value, an unset [NODE_ENV] included. *)
Theorem wrapRootElement_one_deployment (env : string -> option string) :
  exists d,
    serverUrl (wrapRootElement env)
    = env (deployment_prefix d ++ "_MORALIS_SERVER")%string /\
    appId (wrapRootElement env)
    = env (deployment_prefix d ++ "_MORALIS_APP_ID")%string /\
    (d = Staging <-> env "NODE_ENV" = Some "staging") /\
    (d = Production <-> env "NODE_ENV" = Some "production").
Proof.
  unfold wrapRootElement, strict_eq.
  destruct (env "NODE_ENV") as [environment|] eqn:Eenv.
  - destruct (String.eqb_spec environment "staging") as [-> | Hs].
    + exists Staging. repeat split; try reflexivity; discriminate.
    + destruct (String.eqb_spec environment "production") as [-> | Hp].
      * exists Production. repeat split; try reflexivity; discriminate.
      * exists Dev. repeat split; try reflexivity; try discriminate;
          intros H; injection H as ->; contradiction.
  - exists Dev. repeat split; try reflexivity; discriminate.
Qed.
